(** * report.py: scoring and aggregation of coding-interview submissions

    A shallow embedding of [AIEvaluator] and [ReportGenerator] from
    [src/report.py], and the properties of the scoring pipeline.

    Modelling conventions.
    - Python numbers (the [int]s of the weight table and of the test counts,
      the [float]s produced by [/] and [round]) are exact rationals [Q].
      Binary64 rounding error, overflow, NaN and the infinities are outside the
      model; [round(x, 2)] is rounding to the nearest hundredth, ties to even.
      The source rounds a binary64 value that can sit a few units in the last
      place beside the exact one, so at an exact tie it may take the other
      neighbour.  Statements about a rounded value therefore either bound its
      distance to the exact value by half a hundredth, or are made where a tie
      cannot occur; statements that a call returns are made for numbers of
      moderate size ([bounded]), where binary64 does not overflow.
    - A value decoded by [json.loads] is a [json] tree; a Python [dict] with
      string keys is an association list read by its first binding.
    - A raised exception is the [Raise] branch of [result]; code that also
      talks to the model service runs in the state-and-error monad [M] over a
      [world] that records every request sent and every line printed.
    - The submission dictionary is the record [payload]: every key of the
      input schema is present, the two flags and each test's [pass] are
      booleans. *)

From Stdlib Require Import ZArith QArith Qround Qabs List String Bool Lia Lqa.
Import ListNotations.

#[local] Set Warnings "-register-all".

Local Open Scope string_scope.
Local Open Scope Z_scope.
Local Open Scope Q_scope.

(** ** Exceptions and fallible computations *)

Inductive exn : Type :=
| AttributeError
| TypeError
| KeyError
| ZeroDivisionError.

Inductive result (A : Type) : Type :=
| Ok (a : A)
| Raise (e : exn).

Arguments Ok {A} a.
Arguments Raise {A} e.

Definition rbind {A B : Type} (r : result A) (k : A -> result B) : result B :=
  match r with
  | Ok a => k a
  | Raise e => Raise e
  end.

Notation "x <-- r ;; k" := (rbind r (fun x => k))
  (at level 61, r at next level, right associativity).

(** ** JSON values and dictionaries *)

Inductive json : Type :=
| JNull
| JBool (b : bool)
| JNum (q : Q)
| JStr (s : string)
| JArr (items : list json)
| JObj (fields : list (string * json)).

Fixpoint assoc {V : Type} (k : string) (d : list (string * V)) : option V :=
  match d with
  | [] => None
  | (k', v) :: d' => if String.eqb k k' then Some v else assoc k d'
  end.

(** [d.get(k, default)]: defined on dictionaries only. *)
Definition dict_get (d : json) (k : string) (default : json) : result json :=
  match d with
  | JObj fields =>
      match assoc k fields with
      | Some v => Ok v
      | None => Ok default
      end
  | _ => Raise AttributeError
  end.

(** The numeric value of an operand of [/]: [bool] is a subclass of [int]. *)
Definition as_number (v : json) : result Q :=
  match v with
  | JNum q => Ok q
  | JBool true => Ok 1
  | JBool false => Ok 0
  | _ => Raise TypeError
  end.

(** ** Arithmetic *)

(** [a / b] *)
Definition truediv (a b : Q) : result Q :=
  if Qeq_bool b 0 then Raise ZeroDivisionError else Ok (a / b).

Definition round_half_even (x : Q) : Z :=
  let f := Qfloor x in
  match Qcompare (x - inject_Z f) (1 # 2) with
  | Lt => f
  | Eq => if Z.even f then f else (f + 1)%Z
  | Gt => (f + 1)%Z
  end.

(** [round(x, ndigits)] for [ndigits >= 0]. *)
Definition py_round (x : Q) (ndigits : nat) : Q :=
  let scale := inject_Z (10 ^ Z.of_nat ndigits) in
  inject_Z (round_half_even (x * scale)) / scale.

(** [a < b] and [a >= b] on numbers. *)
Definition Qlt_bool (a b : Q) : bool := negb (Qle_bool b a).
Definition Qge_bool (a b : Q) : bool := Qle_bool b a.

(** [sum(xs)] *)
Definition sum (xs : list Q) : Q := fold_left Qplus xs 0.

(** ** Configuration *)

Definition WEIGHTS : list (string * Z) :=
  [ ("syntax", 15%Z);
    ("logic", 40%Z);
    ("efficiency", 20%Z);
    ("quality", 15%Z);
    ("style", 10%Z) ].

(** [WEIGHTS[k]] *)
Definition WEIGHTS_item (k : string) : result Z :=
  match assoc k WEIGHTS with
  | Some w => Ok w
  | None => Raise KeyError
  end.

(** ** Input and derived records *)

Record test_case_result : Type := mk_test_case_result {
  input : json;
  expected : json;
  pass : bool
}.

Record payload : Type := mk_payload {
  ai_generated_coding_question : string;
  language : string;
  User_code : string;
  test_case_results : list test_case_result;
  syntax_error : bool;
  runtime_error : bool
}.

(** The dictionary returned by [quantitative_check]. *)
Record metrics : Type := mk_metrics {
  status : string;
  pass_rate : Q;
  passed_tests : nat;
  total_tests : nat
}.

Definition Q_of_nat (n : nat) : Q := inject_Z (Z.of_nat n).

(** ** AIEvaluator: the deterministic part *)

(** [sum(1 for r in results if r.get("pass", False))] *)
Definition count_passed (results : list test_case_result) : nat :=
  List.length (List.filter pass results).

(** The value bound to [pass_rate] before it is rounded. *)
Definition raw_pass_rate (passed total : nat) : result Q :=
  if (0 <? total)%nat
  then (r <-- truediv (Q_of_nat passed) (Q_of_nat total) ;; Ok (r * 100))
  else Ok 0.

Definition quantitative_check (p : payload) : result metrics :=
  let results := test_case_results p in
  let total := List.length results in
  let passed := count_passed results in
  if syntax_error p
  then Ok (mk_metrics "Syntax Error" 0 0 total)
  else
    rate <-- raw_pass_rate passed total ;;
    let status :=
      if runtime_error p then "Runtime Error"
      else if Qlt_bool rate 100 then "Partial Pass" else "Completed" in
    Ok (mk_metrics status (py_round rate 2) passed total).

Definition _get_fallback_error (message : string) : json :=
  JObj
    [ ("technical_analysis",
       JObj [ ("efficiency_score", JNum 5);
              ("style_score", JNum 5);
              ("critique", JStr "AI Error") ]);
      ("feedback_for_candidate",
       JObj [ ("what_went_well", JStr "N/A");
              ("what_to_improve", JStr (String.append "Error: " message)) ]);
      ("recruiter_executive_summary",
       JObj [ ("hiring_decision", JStr "Undetermined");
              ("final_conclusion", JStr "AI Service Unavailable") ]);
      ("candidate_holistic_feedback",
       JObj [ ("major_strength", JStr "N/A");
              ("major_weakness", JStr "N/A") ]) ].

(** [qual.get("technical_analysis", {}).get(k, 0)] *)
Definition technical_score (qual : json) (k : string) : result json :=
  ta <-- dict_get qual "technical_analysis" (JObj []) ;;
  dict_get ta k (JNum 0).

(** The sum [score] accumulates in [total], as a function of the pass rate and
    of the two critique scores. *)
Definition weighted_sum (rate eff style : Q) : Q :=
  15 + rate / 100 * 40 + eff / 10 * 20 + style / 10 * 25.

Definition score (quant : metrics) (qual : json) (syntax_error : bool)
  : result Q :=
  if syntax_error then Ok 0
  else
    eff_score <-- technical_score qual "efficiency_score" ;;
    style_score <-- technical_score qual "style_score" ;;
    w_syntax <-- WEIGHTS_item "syntax" ;;
    let total := inject_Z w_syntax in
    logic <-- truediv (pass_rate quant) 100 ;;
    w_logic <-- WEIGHTS_item "logic" ;;
    let total := total + logic * inject_Z w_logic in
    eff <-- as_number eff_score ;;
    eff <-- truediv eff 10 ;;
    w_efficiency <-- WEIGHTS_item "efficiency" ;;
    let total := total + eff * inject_Z w_efficiency in
    style <-- as_number style_score ;;
    style <-- truediv style 10 ;;
    w_quality <-- WEIGHTS_item "quality" ;;
    w_style <-- WEIGHTS_item "style" ;;
    let total := total + style * inject_Z (w_quality + w_style) in
    Ok (py_round total 2).

(** ** The model service and the world *)

(** One entry of [summary_context] in the synthesis request. *)
Record question_summary : Type := mk_question_summary {
  summary_question : string;
  summary_language : string;
  summary_score : Q;
  summary_pass_rate : Q;
  summary_efficiency : json;
  summary_critique : json
}.

(** A request text, kept as the values interpolated into its template. *)
Inductive prompt : Type :=
| AnalysisPrompt (question lang : string) (rate : Q) (passed total : nat)
                 (code : string)
| SynthesisPrompt (overall : Q) (summary_context : list question_summary).

(** What the body of the [try] in [_call_ai] comes to: the decoded reply, or
    an exception (raised by the client or by [json.loads]) with its text. *)
Inductive ai_outcome : Type :=
| Replied (reply : json)
| Failed (detail : string).

Record world : Type := mk_world {
  requests : list prompt;
  printed : list string
}.

Definition M (A : Type) : Type := world -> result A * world.

Definition ret {A : Type} (a : A) : M A := fun w => (Ok a, w).

Definition bind {A B : Type} (m : M A) (k : A -> M B) : M B :=
  fun w =>
    match m w with
    | (Ok a, w') => k a w'
    | (Raise e, w') => (Raise e, w')
    end.

Definition lift {A : Type} (r : result A) : M A := fun w => (r, w).

Notation "x <- m ; k" := (bind m (fun x => k))
  (at level 61, m at next level, right associativity).

(** One entry of [detailed_question_analysis]. *)
Record question_report : Type := mk_question_report {
  question : string;
  report_language : string;
  final_score : Q;
  report_metrics : metrics;
  ai_analysis : json
}.

Record conclusive_report : Type := mk_conclusive_report {
  overall_score : Q;
  report_status : string;
  recruiter_summary : json;
  candidate_growth_plan : json
}.

Record final_report : Type := mk_final_report {
  detailed_question_analysis : list question_report;
  final_conclusive_report : conclusive_report
}.

(** [summary_context] is built before the request is sent, outside the [try]. *)
Fixpoint summary_context_of (individual_reports : list question_report)
  : result (list question_summary) :=
  match individual_reports with
  | [] => Ok []
  | rep :: rest =>
      tech <-- dict_get (ai_analysis rep) "technical_analysis" (JObj []) ;;
      efficiency <-- dict_get tech "efficiency_score" (JStr "N/A") ;;
      critique <-- dict_get tech "critique" (JStr "N/A") ;;
      items <-- summary_context_of rest ;;
      Ok (mk_question_summary (question rep) (report_language rep)
            (final_score rep) (pass_rate (report_metrics rep))
            efficiency critique :: items)
  end.

(** [overall_avg] of [generate]. *)
Definition overall_average (scores : list Q) : result Q :=
  match scores with
  | [] => Ok 0
  | _ :: _ =>
      mean <-- truediv (sum scores) (Q_of_nat (List.length scores)) ;;
      Ok (py_round mean 2)
  end.

Section Pipeline.

(** The service, as a function of the requests sent before and of this one. *)
Variable service : list prompt -> prompt -> ai_outcome.

Definition _call_ai (request : prompt) : M json :=
  fun w =>
    let sent := mk_world (requests w ++ [request]) (printed w) in
    match service (requests w) request with
    | Replied reply => (Ok reply, sent)
    | Failed detail =>
        (Ok (JObj []),
         mk_world (requests sent)
           (printed sent ++ [String.append "AI GENERATION ERROR: " detail]))
    end.

Definition qualitative_check (p : payload) (quant : metrics) : M json :=
  if syntax_error p
  then ret (_get_fallback_error "Syntax Error - Code did not compile.")
  else
    _call_ai
      (AnalysisPrompt (ai_generated_coding_question p) (language p)
         (pass_rate quant) (passed_tests quant) (total_tests quant)
         (User_code p)).

Definition synthesize_final_report
    (individual_reports : list question_report) (overall : Q) : M json :=
  summary_context <- lift (summary_context_of individual_reports) ;
  _call_ai (SynthesisPrompt overall summary_context).

(** The body of the loop of [generate]. *)
Definition analyze_question (p : payload) : M question_report :=
  quant <- lift (quantitative_check p) ;
  qual <- qualitative_check p quant ;
  final <- lift (score quant qual (syntax_error p)) ;
  ret (mk_question_report (ai_generated_coding_question p) (language p)
         final quant qual).

(** The loop of [generate], from the lists accumulated so far. *)
Fixpoint analyze_questions (payloads : list payload)
    (reports : list question_report) (scores : list Q)
  : M (list question_report * list Q) :=
  match payloads with
  | [] => ret (reports, scores)
  | p :: rest =>
      rep <- analyze_question p ;
      analyze_questions rest (reports ++ [rep]) (scores ++ [final_score rep])
  end.

Definition generate (payloads : list payload) : M final_report :=
  analysed <- analyze_questions payloads [] [] ;
  let reports := fst analysed in
  let scores := snd analysed in
  overall_avg <- lift (overall_average scores) ;
  final_summary <- synthesize_final_report reports overall_avg ;
  recruiter <-
    lift (dict_get final_summary "recruiter_executive_summary" (JObj [])) ;
  growth <-
    lift (dict_get final_summary "candidate_holistic_feedback" (JObj [])) ;
  ret (mk_final_report reports
         (mk_conclusive_report overall_avg
            (if Qge_bool overall_avg 70 then "Passed" else "Failed")
            recruiter growth)).

End Pipeline.

(** A report whose critique [synthesize_final_report] can read: its
    [technical_analysis], or the default for it, is a dictionary. *)
Definition summarisable (rep : question_report) : Prop :=
  exists tech : list (string * json),
    dict_get (ai_analysis rep) "technical_analysis" (JObj []) = Ok (JObj tech).

(** ** Sample data *)

Definition demo_payload (name : string) (passes : list bool)
    (syntax runtime : bool) : payload :=
  mk_payload name "Python" "def reverse_string(s): return s[::-1]"
    (map (mk_test_case_result (JStr "hello") (JStr "olleh")) passes)
    syntax runtime.

Definition demo_critique (eff style : Q) : json :=
  JObj
    [ ("technical_analysis",
       JObj [ ("efficiency_score", JNum eff);
              ("style_score", JNum style);
              ("time_complexity", JStr "O(n)");
              ("space_complexity", JStr "O(n)");
              ("critique", JStr "Idiomatic slicing.") ]);
      ("feedback_for_candidate",
       JObj [ ("what_went_well", JStr "Concise.");
              ("what_to_improve", JStr "Name the edge cases.") ]) ].

Definition demo_summary : json :=
  JObj
    [ ("recruiter_executive_summary",
       JObj [ ("hiring_decision", JStr "Hire");
              ("candidate_level_assessment", JStr "Mid-Level");
              ("final_conclusion", JStr "Solid fundamentals.") ]);
      ("candidate_holistic_feedback",
       JObj [ ("major_strength", JStr "Clarity");
              ("major_weakness", JStr "Testing");
              ("final_recommendation", JStr "Complexity analysis") ]) ].

(** A service that critiques three known questions, fails on any other, and
    answers a synthesis request with [synthesis]. *)
Definition demo_service (synthesis : ai_outcome)
  : list prompt -> prompt -> ai_outcome :=
  fun _ request =>
    match request with
    | AnalysisPrompt q _ _ _ _ _ =>
        if String.eqb q "Q1" then Replied (demo_critique 10 10)
        else if String.eqb q "Q2" then Replied (demo_critique 5 2)
        else if String.eqb q "Q3" then Replied (demo_critique 5 6)
        else Failed "503 Service Unavailable"
    | SynthesisPrompt _ _ => synthesis
    end.

Definition demo_batch : list payload :=
  [ demo_payload "Q1" [true; true] false false;
    demo_payload "Q2" [true; false] false false;
    demo_payload "Q3" [false; true] false false ].

(** Nothing sent, nothing printed. *)
Definition quiet : world := mk_world [] [].

(** ** Notions used to state the properties of the pipeline *)

(** The request [qualitative_check] sends for a submission with metrics
    [quant]. *)
Definition analysis_request (p : payload) (quant : metrics) : prompt :=
  AnalysisPrompt (ai_generated_coding_question p) (language p)
    (pass_rate quant) (passed_tests quant) (total_tests quant) (User_code p).

(** The analysis requests of a batch, in order: one per submission without a
    syntax error. *)
Fixpoint analysis_requests (payloads : list payload) : list prompt :=
  match payloads with
  | [] => []
  | p :: rest =>
      match syntax_error p, quantitative_check p with
      | false, Ok quant => analysis_request p quant :: analysis_requests rest
      | _, _ => analysis_requests rest
      end
  end.

(** A line printed by the handler of [_call_ai]. *)
Definition error_line (line : string) : Prop :=
  exists detail : string, line = String.append "AI GENERATION ERROR: " detail.

(** [isinstance(v, dict)] *)
Definition is_dict (v : json) : bool :=
  match v with
  | JObj _ => true
  | _ => false
  end.

(** The submission [p] with its [runtime_error] flag set to [flag]. *)
Definition with_runtime_error (p : payload) (flag : bool) : payload :=
  mk_payload (ai_generated_coding_question p) (language p) (User_code p)
    (test_case_results p) (syntax_error p) flag.

(** What the loop of [generate] records for submission [p]. *)
Definition report_for (p : payload) (rep : question_report) : Prop :=
  question rep = ai_generated_coding_question p /\
  report_language rep = language p /\
  quantitative_check p = Ok (report_metrics rep) /\
  score (report_metrics rep) (ai_analysis rep) (syntax_error p)
  = Ok (final_score rep) /\
  (syntax_error p = true ->
   ai_analysis rep = _get_fallback_error "Syntax Error - Code did not compile.").

(** A computation that only appends to the world: requests sent, and error
    lines printed, at most one per request. *)
Definition traced {A : Type} (m : M A) : Prop :=
  forall w : world,
    exists (sent : list prompt) (lines : list string),
      requests (snd (m w)) = (requests w ++ sent)%list /\
      printed (snd (m w)) = (printed w ++ lines)%list /\
      Forall error_line lines /\
      (List.length lines <= List.length sent)%nat.

(** A service whose every reply is well-formed JSON, but a bare string. *)
Definition prose_service : list prompt -> prompt -> ai_outcome :=
  fun _ _ => Replied (JStr "I cannot review this code.").

(** Magnitudes far inside the range in which the binary64 arithmetic of the
    source is finite and accurate to many more than two decimals. *)
Definition bounded (q : Q) : Prop := - (1000000) <= q <= 1000000.

(** An outcome of the synthesis request that lets [generate] return. *)
Definition survivable (outcome : ai_outcome) : bool :=
  match outcome with
  | Failed _ => true
  | Replied reply => is_dict reply
  end.

(** * Properties *)

(** ** Rounding *)

Lemma round_half_even_floor (x : Q) :
  round_half_even x = Qfloor x \/ round_half_even x = (Qfloor x + 1)%Z.
Proof.
  unfold round_half_even.
  destruct (Qcompare _ _); [destruct (Z.even _) | |]; auto.
Qed.

Lemma round_half_even_monotone (x y : Q) :
  x <= y -> (round_half_even x <= round_half_even y)%Z.
Proof.
  intros Hxy.
  pose proof (Qfloor_resp_le _ _ Hxy) as Hf.
  destruct (Z.eq_dec (Qfloor x) (Qfloor y)) as [E | N].
  - unfold round_half_even. rewrite <- E.
    destruct (Qcompare_spec (x - inject_Z (Qfloor x)) (1 # 2)) as [Hx | Hx | Hx];
      destruct (Qcompare_spec (y - inject_Z (Qfloor x)) (1 # 2))
        as [Hy | Hy | Hy];
      try destruct (Z.even (Qfloor x)); try lia; exfalso; lra.
  - destruct (round_half_even_floor x) as [-> | ->];
      destruct (round_half_even_floor y) as [-> | ->]; lia.
Qed.

Lemma scale_pos (n : nat) : 0 < inject_Z (10 ^ Z.of_nat n).
Proof.
  replace 0 with (inject_Z 0) by reflexivity. rewrite <- Zlt_Qlt.
  apply Z.pow_pos_nonneg; lia.
Qed.

Lemma py_round_monotone (n : nat) (x y : Q) :
  x <= y -> py_round x n <= py_round y n.
Proof.
  intros Hxy. unfold py_round.
  pose proof (scale_pos n) as Hs.
  set (s := inject_Z (10 ^ Z.of_nat n)) in *.
  apply Qmult_le_compat_r.
  - rewrite <- Zle_Qle. apply round_half_even_monotone.
    apply Qmult_le_compat_r; lra.
  - apply Qlt_le_weak, Qinv_lt_0_compat, Hs.
Qed.

Lemma py_round_comp (n : nat) (x y : Q) :
  x == y -> py_round x n == py_round y n.
Proof. intros E. apply Qle_antisym; apply py_round_monotone; lra. Qed.

(** ** Counting and the pass rate *)

Lemma count_passed_le (results : list test_case_result) :
  (count_passed results <= List.length results)%nat.
Proof. apply List.filter_length_le. Qed.

Lemma Q_of_nat_pos (n : nat) : (0 < n)%nat -> 0 < Q_of_nat n.
Proof.
  intros H. unfold Q_of_nat. replace 0 with (inject_Z 0) by reflexivity.
  rewrite <- Zlt_Qlt. lia.
Qed.

Lemma round_half_even_error (x : Q) :
  - (1 # 2) <= inject_Z (round_half_even x) - x <= 1 # 2.
Proof.
  unfold round_half_even.
  pose proof (Qfloor_le x) as Hl. pose proof (Qlt_floor x) as Hu.
  rewrite inject_Z_plus in Hu. change (inject_Z 1) with 1 in Hu.
  destruct (Qcompare_spec (x - inject_Z (Qfloor x)) (1 # 2)) as [H | H | H].
  - destruct (Z.even (Qfloor x)).
    + lra.
    + rewrite inject_Z_plus. change (inject_Z 1) with 1. lra.
  - lra.
  - rewrite inject_Z_plus. change (inject_Z 1) with 1. lra.
Qed.

(** [round(x, 2)] is a number of hundredths at most half a hundredth away. *)
Lemma py_round_error (x : Q) :
  - (1 # 200) <= py_round x 2 - x <= 1 # 200.
Proof.
  pose proof (round_half_even_error (x * 100)) as H.
  unfold py_round. change (inject_Z (10 ^ Z.of_nat 2)) with 100.
  set (n := inject_Z (round_half_even (x * 100))) in *.
  assert (E : n / 100 - x == (n - x * 100) * (1 # 100)) by field.
  rewrite E. lra.
Qed.

Lemma py_round_hundredths (x : Q) :
  py_round x 2 == inject_Z (round_half_even (x * 100)) / 100.
Proof. reflexivity. Qed.

(** A number of fifths is never half way between two integers: it rounds to
    an integer at most two fifths away. *)
Lemma round_half_even_fifths (m : Z) :
  - (2 # 5) <= inject_Z (round_half_even (inject_Z m / 5)) - inject_Z m / 5
  <= 2 # 5.
Proof.
  pose proof (round_half_even_error (inject_Z m / 5)) as H.
  set (n := round_half_even (inject_Z m / 5)) in *.
  assert (E : inject_Z n - inject_Z m / 5
              == inject_Z (5 * n - m) * (1 # 5)).
  { rewrite <- Z.add_opp_r, inject_Z_plus, inject_Z_opp, inject_Z_mult.
    change (inject_Z 5) with 5. field. }
  rewrite E in *.
  assert (Hz : (-2 <= 5 * n - m <= 2)%Z).
  { set (d := (5 * n - m)%Z) in *.
    assert (H1 : inject_Z (-5) <= inject_Z (2 * d))
      by (rewrite inject_Z_mult; change (inject_Z 2) with 2;
          change (inject_Z (-5)) with (-5); lra).
    assert (H2 : inject_Z (2 * d) <= inject_Z 5)
      by (rewrite inject_Z_mult; change (inject_Z 2) with 2;
          change (inject_Z 5) with 5; lra).
    rewrite <- Zle_Qle in H1, H2. lia. }
  destruct Hz as [Hz1 Hz2].
  rewrite Zle_Qle in Hz1, Hz2.
  change (inject_Z (-2)) with (-2) in Hz1. change (inject_Z 2) with 2 in Hz2.
  lra.
Qed.

Lemma round_half_even_comp (x y : Q) :
  x == y -> round_half_even x = round_half_even y.
Proof.
  intros E. apply Z.le_antisymm; apply round_half_even_monotone; lra.
Qed.

Lemma Q_of_nat_le (m n : nat) : (m <= n)%nat <-> Q_of_nat m <= Q_of_nat n.
Proof. unfold Q_of_nat. rewrite <- Zle_Qle. lia. Qed.

Lemma Qlt_bool_iff (a b : Q) : Qlt_bool a b = true <-> a < b.
Proof.
  unfold Qlt_bool. rewrite negb_true_iff, <- not_true_iff_false, Qle_bool_iff.
  split; intros H; lra.
Qed.

Lemma truediv_ok (a b : Q) : ~ b == 0 -> truediv a b = Ok (a / b).
Proof.
  intros H. unfold truediv.
  destruct (Qeq_bool b 0) eqn:E; [| reflexivity].
  apply Qeq_bool_iff in E. contradiction.
Qed.

(** The guard on [total] keeps the division from raising. *)
Lemma raw_pass_rate_ok (passed total : nat) :
  raw_pass_rate passed total =
  Ok (if (0 <? total)%nat then Q_of_nat passed / Q_of_nat total * 100 else 0).
Proof.
  unfold raw_pass_rate. destruct (0 <? total)%nat eqn:E; [| reflexivity].
  apply Nat.ltb_lt in E. rewrite truediv_ok; [reflexivity |].
  pose proof (Q_of_nat_pos total E). lra.
Qed.

Lemma ratio_lt_100 (passed total : nat) :
  (0 < total)%nat ->
  (Q_of_nat passed / Q_of_nat total * 100 < 100 <-> (passed < total)%nat).
Proof.
  intros Ht. pose proof (Q_of_nat_pos total Ht) as Hp.
  assert (E : Q_of_nat passed / Q_of_nat total * 100 - 100
              == (Q_of_nat passed - Q_of_nat total) * (100 / Q_of_nat total))
    by (field; lra).
  assert (Hc : 0 < 100 / Q_of_nat total)
    by (apply Qlt_shift_div_l; lra).
  split; intros H.
  - apply Nat.nle_gt. intros Hle. apply Q_of_nat_le in Hle.
    assert (0 <= (Q_of_nat passed - Q_of_nat total) * (100 / Q_of_nat total))
      by (apply Qmult_le_0_compat; lra).
    lra.
  - assert (Hlt : Q_of_nat passed < Q_of_nat total).
    { apply Qnot_le_lt. intros Hle. apply Q_of_nat_le in Hle. lia. }
    assert (0 < (Q_of_nat total - Q_of_nat passed) * (100 / Q_of_nat total))
      by (apply Qmult_lt_0_compat; lra).
    lra.
Qed.

(** ** quantitative_check *)


(** C7: without a syntax error [quantitative_check] returns (it does not
    raise), and the pass rate it reports is a number of hundredths: 0 when
    there are no test results, and otherwise [passed / total * 100] rounded to
    2 decimals, that is, at most half a hundredth away from it. *)
Theorem quantitative_check_pass_rate (p : payload) :
  syntax_error p = false ->
  let total := List.length (test_case_results p) in
  let passed := count_passed (test_case_results p) in
  exists (m : metrics) (hundredths : Z),
    quantitative_check p = Ok m /\
    passed_tests m = passed /\
    total_tests m = total /\
    pass_rate m == inject_Z hundredths / 100 /\
    (total = 0%nat -> pass_rate m == 0) /\
    ((0 < total)%nat ->
     - (1 # 200)
     <= pass_rate m - Q_of_nat passed / Q_of_nat total * 100
     <= 1 # 200).
Proof.
  intros Hs total passed. unfold quantitative_check.
  fold total. fold passed. rewrite Hs, raw_pass_rate_ok. cbn [rbind].
  eexists. eexists. split; [reflexivity |].
  cbn [pass_rate passed_tests total_tests].
  split; [reflexivity |]. split; [reflexivity |].
  split; [apply py_round_hundredths |]. split.
  - intros ->. reflexivity.
  - intros H. apply Nat.ltb_lt in H. rewrite H. apply py_round_error.
Qed.

Lemma quantitative_check_pass_rate_witness :
  (exists (m : metrics) (hundredths : Z),
     quantitative_check (demo_payload "Q0" [] false false) = Ok m /\
     passed_tests m = 0%nat /\
     total_tests m = 0%nat /\
     pass_rate m == inject_Z hundredths / 100 /\
     (0%nat = 0%nat -> pass_rate m == 0) /\
     ((0 < 0)%nat ->
      - (1 # 200) <= pass_rate m - Q_of_nat 0 / Q_of_nat 0 * 100 <= 1 # 200))
  /\
  (exists (m : metrics) (hundredths : Z),
     quantitative_check (demo_payload "Q" [true; false; true] false false)
     = Ok m /\
     passed_tests m = 2%nat /\
     total_tests m = 3%nat /\
     pass_rate m == inject_Z hundredths / 100 /\
     (3%nat = 0%nat -> pass_rate m == 0) /\
     ((0 < 3)%nat ->
      - (1 # 200) <= pass_rate m - Q_of_nat 2 / Q_of_nat 3 * 100 <= 1 # 200)).
Proof.
  split.
  - apply (quantitative_check_pass_rate (demo_payload "Q0" [] false false)).
    reflexivity.
  - apply (quantitative_check_pass_rate
             (demo_payload "Q" [true; false; true] false false)).
    reflexivity.
Defined.

Example quantitative_check_two_of_three :
  quantitative_check (demo_payload "Q" [true; false; true] false false)
  = Ok (mk_metrics "Partial Pass" (6667 # 100) 2 3).
Proof. reflexivity. Qed.

Example quantitative_check_syntax_beats_runtime :
  quantitative_check (demo_payload "Q" [true; true] true true)
  = Ok (mk_metrics "Syntax Error" 0 0 2).
Proof. reflexivity. Qed.

Example quantitative_check_runtime_beats_completed :
  quantitative_check (demo_payload "Q" [true; true] false true)
  = Ok (mk_metrics "Runtime Error" (10000 # 100) 2 2).
Proof. reflexivity. Qed.

(** ** score *)

(** Once both critique scores are read as numbers, [score] is the rounded
    weighted sum: every lookup in [WEIGHTS] succeeds and no division raises. *)
Lemma score_numeric (quant : metrics) (qual eff_score style_score : json)
    (eff style : Q) :
  technical_score qual "efficiency_score" = Ok eff_score ->
  technical_score qual "style_score" = Ok style_score ->
  as_number eff_score = Ok eff ->
  as_number style_score = Ok style ->
  score quant qual false
  = Ok (py_round (weighted_sum (pass_rate quant) eff style) 2).
Proof.
  intros He Hs Hne Hns. unfold score.
  rewrite He, Hs. cbn [rbind]. rewrite Hne, Hns. reflexivity.
Qed.

Lemma weighted_sum_linear (rate eff style : Q) :
  weighted_sum rate eff style
  == 15 + rate * (2 # 5) + eff * 2 + style * (5 # 2).
Proof. unfold weighted_sum. field. Qed.

Lemma weighted_sum_monotone (r1 r2 e1 e2 s1 s2 : Q) :
  r1 <= r2 -> e1 <= e2 -> s1 <= s2 ->
  weighted_sum r1 e1 s1 <= weighted_sum r2 e2 s2.
Proof. intros. rewrite !weighted_sum_linear. lra. Qed.

Lemma weighted_sum_fifths (k e s : Z) :
  weighted_sum (inject_Z k / 100) (inject_Z e) (inject_Z s) * 100
  == inject_Z (7500 + 2 * k + 1000 * e + 1250 * s) / 5.
Proof.
  rewrite !inject_Z_plus, !inject_Z_mult. unfold weighted_sum.
  change (inject_Z 7500) with 7500. change (inject_Z 2) with 2.
  change (inject_Z 1000) with 1000. change (inject_Z 1250) with 1250.
  field.
Qed.

(** C4: without a syntax error, for a pass rate of two decimals and efficiency
    and style scores that are integers (0 where the field is missing), of
    moderate size, [score] returns
    15 + (pass_rate/100)*40 + (efficiency/10)*20 + (style/10)*25 rounded to
    2 decimals.  That sum is a whole number of fifths of a hundredth, so the
    rounding is never a tie: the score is within 0.004 of the sum.  With pass
    rate 100 and both scores 10 it is 100. *)
Theorem score_weighted_sum (quant : metrics)
    (qual eff_score style_score : json) (rate eff style : Z) :
  technical_score qual "efficiency_score" = Ok eff_score ->
  technical_score qual "style_score" = Ok style_score ->
  as_number eff_score = Ok (inject_Z eff) ->
  as_number style_score = Ok (inject_Z style) ->
  pass_rate quant == inject_Z rate / 100 ->
  (- 100000000 <= rate <= 100000000)%Z ->
  (- 1000000 <= eff <= 1000000)%Z ->
  (- 1000000 <= style <= 1000000)%Z ->
  let sum := 15 + pass_rate quant / 100 * 40 + inject_Z eff / 10 * 20
             + inject_Z style / 10 * 25 in
  exists (s : Q) (hundredths : Z),
    score quant qual false = Ok s /\
    s = py_round sum 2 /\
    s == inject_Z hundredths / 100 /\
    - (4 # 1000) <= s - sum <= 4 # 1000 /\
    (rate = 10000%Z -> eff = 10%Z -> style = 10%Z -> s == 100).
Proof.
  intros He Hs Hne Hns Hrate _ _ _ sum.
  pose proof (score_numeric quant qual _ _ _ _ He Hs Hne Hns) as H.
  fold (weighted_sum (pass_rate quant) (inject_Z eff) (inject_Z style)) in sum.
  assert (Esum : sum * 100
                 == inject_Z (7500 + 2 * rate + 1000 * eff + 1250 * style) / 5).
  { rewrite <- weighted_sum_fifths. unfold sum, weighted_sum.
    rewrite Hrate. reflexivity. }
  assert (Er : py_round sum 2
               == inject_Z (round_half_even
                              (inject_Z (7500 + 2 * rate + 1000 * eff
                                         + 1250 * style) / 5)) / 100).
  { rewrite py_round_hundredths, (round_half_even_comp _ _ Esum).
    reflexivity. }
  exists (py_round sum 2). eexists. split; [exact H |].
  split; [reflexivity |]. split; [apply py_round_hundredths |]. split.
  - pose proof (round_half_even_fifths
                  (7500 + 2 * rate + 1000 * eff + 1250 * style)) as Hm.
    rewrite Er.
    set (n := inject_Z (round_half_even _)) in *.
    assert (E : n / 100 - sum == (n - sum * 100) * (1 # 100)) by field.
    rewrite E, Esum. lra.
  - intros -> -> ->. rewrite Er. reflexivity.
Qed.

Lemma score_weighted_sum_witness :
  exists (s : Q) (hundredths : Z),
    score (mk_metrics "Completed" 100 2 2) (demo_critique 10 10) false = Ok s /\
    s = py_round (15 + 100 / 100 * 40 + 10 / 10 * 20 + 10 / 10 * 25) 2 /\
    s == inject_Z hundredths / 100 /\
    - (4 # 1000)
    <= s - (15 + 100 / 100 * 40 + 10 / 10 * 20 + 10 / 10 * 25)
    <= 4 # 1000 /\
    s == 100.
Proof.
  destruct (score_weighted_sum (mk_metrics "Completed" 100 2 2)
              (demo_critique 10 10) (JNum 10) (JNum 10) 10000 10 10
              eq_refl eq_refl eq_refl eq_refl)
    as (s & h & Hs & Hr & Hh & Hm & Hfull);
    [reflexivity | lia | lia | lia |].
  exists s, h. repeat split; try assumption; try apply Hm.
  apply Hfull; reflexivity.
Defined.

(** C8: [score] is monotone.  For two non-syntax-error inputs with numeric
    critique scores, all of moderate size, if the pass rate, the efficiency
    score and the style score of the first are each at most those of the
    second, both calls return and the first score is at most the second.
    Inputs that differ in one of the three only are the instances with the
    other two equal. *)
Theorem score_monotone (q1 q2 : metrics) (c1 c2 ev1 ev2 sv1 sv2 : json)
    (e1 e2 s1 s2 : Q) :
  technical_score c1 "efficiency_score" = Ok ev1 -> as_number ev1 = Ok e1 ->
  technical_score c2 "efficiency_score" = Ok ev2 -> as_number ev2 = Ok e2 ->
  technical_score c1 "style_score" = Ok sv1 -> as_number sv1 = Ok s1 ->
  technical_score c2 "style_score" = Ok sv2 -> as_number sv2 = Ok s2 ->
  bounded (pass_rate q1) -> bounded (pass_rate q2) ->
  bounded e1 -> bounded e2 -> bounded s1 -> bounded s2 ->
  pass_rate q1 <= pass_rate q2 -> e1 <= e2 -> s1 <= s2 ->
  exists t1 t2 : Q,
    score q1 c1 false = Ok t1 /\ score q2 c2 false = Ok t2 /\ t1 <= t2.
Proof.
  intros He1 Hn1 He2 Hn2 Hs1 Hm1 Hs2 Hm2 _ _ _ _ _ _ Hr He Hs.
  rewrite (score_numeric q1 c1 _ _ _ _ He1 Hs1 Hn1 Hm1).
  rewrite (score_numeric q2 c2 _ _ _ _ He2 Hs2 Hn2 Hm2).
  eexists. eexists. split; [reflexivity |]. split; [reflexivity |].
  apply py_round_monotone, weighted_sum_monotone; assumption.
Qed.

Lemma score_monotone_witness :
  exists t1 t2 : Q,
    score (mk_metrics "Partial Pass" 50 1 2) (demo_critique 5 2) false = Ok t1 /\
    score (mk_metrics "Partial Pass" 50 1 2) (demo_critique 5 6) false = Ok t2 /\
    t1 <= t2.
Proof.
  apply (score_monotone _ _ (demo_critique 5 2) (demo_critique 5 6)
           (JNum 5) (JNum 5) (JNum 2) (JNum 6) 5 5 2 6);
    try reflexivity; unfold bounded; cbn; lra.
Defined.

(** C10, as stated, fails: an efficiency score of 100, outside the documented
    range, is not clamped, and the score is 255. *)
Lemma score_out_of_range :
  exists s : Q,
    score (mk_metrics "Completed" 100 2 2) (demo_critique 100 0) false = Ok s /\
    s == 255 /\ 100 < s.
Proof. eexists. split; [reflexivity |]. split; reflexivity. Qed.

(** C10, amended: with a syntax error, or with a pass rate within 0..100 and
    efficiency and style scores that are missing (read as 0) or numbers within
    0..10, [score] returns a number of hundredths within 0..100. *)
Theorem score_within_range (quant : metrics)
    (qual eff_score style_score : json) (eff style : Q)
    (syntax_error : bool) :
  (syntax_error = false ->
   technical_score qual "efficiency_score" = Ok eff_score /\
   technical_score qual "style_score" = Ok style_score /\
   as_number eff_score = Ok eff /\
   as_number style_score = Ok style /\
   0 <= pass_rate quant <= 100 /\ 0 <= eff <= 10 /\ 0 <= style <= 10) ->
  exists (s : Q) (hundredths : Z),
    score quant qual syntax_error = Ok s /\
    0 <= s <= 100 /\
    s == inject_Z hundredths / 100.
Proof.
  intros H. destruct syntax_error.
  - exists 0, 0%Z. repeat split; try lra.
  - destruct (H eq_refl) as (He & Hs & Hne & Hns & Hr & Hre & Hrs).
    rewrite (score_numeric quant qual _ _ _ _ He Hs Hne Hns).
    eexists. eexists. split; [reflexivity |]. split; [| reflexivity].
    assert (L : weighted_sum 0 0 0 <= weighted_sum (pass_rate quant) eff style)
      by (apply weighted_sum_monotone; lra).
    assert (U : weighted_sum (pass_rate quant) eff style
                <= weighted_sum 100 10 10)
      by (apply weighted_sum_monotone; lra).
    apply (py_round_monotone 2) in L, U.
    assert (L0 : py_round (weighted_sum 0 0 0) 2 == 15) by reflexivity.
    assert (U0 : py_round (weighted_sum 100 10 10) 2 == 100) by reflexivity.
    lra.
Qed.

Lemma score_within_range_witness :
  exists (s : Q) (hundredths : Z),
    score (mk_metrics "Completed" 100 2 2) (JObj []) false = Ok s /\
    0 <= s <= 100 /\
    s == inject_Z hundredths / 100.
Proof.
  apply (score_within_range (mk_metrics "Completed" 100 2 2) (JObj [])
           (JNum 0) (JNum 0) 0 0 false).
  intros _. repeat split; try reflexivity; cbn; lra.
Defined.

Example score_missing_scores :
  score (mk_metrics "Completed" 100 2 2) (JObj []) false = Ok (5500 # 100).
Proof. reflexivity. Qed.

Example score_non_numeric_score_raises :
  score (mk_metrics "Completed" 100 2 2)
    (JObj [("technical_analysis", JObj [("efficiency_score", JStr "high")])])
    false
  = Raise TypeError.
Proof. reflexivity. Qed.

(** ** Reading a critique *)

Lemma dict_get_dict (fields : list (string * json)) (k : string) (d : json) :
  exists v : json, dict_get (JObj fields) k d = Ok v.
Proof. cbn. destruct (assoc k fields); eauto. Qed.

Lemma technical_score_dict (qual : json) (k : string) (v : json) :
  technical_score qual k = Ok v ->
  exists tech : list (string * json),
    dict_get qual "technical_analysis" (JObj []) = Ok (JObj tech).
Proof.
  unfold technical_score.
  destruct (dict_get qual "technical_analysis" (JObj [])) as [ta | e];
    cbn [rbind]; [| discriminate].
  destruct ta; cbn; try discriminate. eauto.
Qed.

Lemma score_ok_dict (quant : metrics) (qual : json) (s : Q) :
  score quant qual false = Ok s ->
  exists tech : list (string * json),
    dict_get qual "technical_analysis" (JObj []) = Ok (JObj tech).
Proof.
  unfold score.
  destruct (technical_score qual "efficiency_score") as [v | e] eqn:E;
    cbn [rbind]; [| discriminate].
  intros _. exact (technical_score_dict _ _ _ E).
Qed.

Lemma summary_context_of_ok (reports : list question_report) :
  Forall summarisable reports ->
  exists ctx : list question_summary, summary_context_of reports = Ok ctx.
Proof.
  induction 1 as [| rep reports [tech Ht] _ [ctx IH]];
    cbn [summary_context_of].
  - eauto.
  - rewrite Ht. cbn [rbind].
    destruct (dict_get_dict tech "efficiency_score" (JStr "N/A")) as [v1 ->].
    destruct (dict_get_dict tech "critique" (JStr "N/A")) as [v2 ->].
    cbn [rbind]. rewrite IH. cbn [rbind]. eauto.
Qed.

(** The guard on [scores] keeps the division from raising. *)
Lemma overall_average_ok (scores : list Q) :
  overall_average scores =
  Ok (match scores with
      | [] => 0
      | _ :: _ => py_round (sum scores / Q_of_nat (List.length scores)) 2
      end).
Proof.
  destruct scores as [| s scores]; [reflexivity |].
  unfold overall_average. rewrite truediv_ok; [reflexivity |].
  pose proof (Q_of_nat_pos (List.length (s :: scores))) as H.
  cbn [List.length] in *. specialize (H ltac:(lia)). lra.
Qed.

(** ** The pipeline *)

Ltac run_M := unfold bind, lift, ret.

Section PipelineFacts.

Variable service : list prompt -> prompt -> ai_outcome.

Lemma _call_ai_failed (request : prompt) (w : world) (detail : string) :
  service (requests w) request = Failed detail ->
  _call_ai service request w
  = (Ok (JObj []),
     mk_world (requests w ++ [request])
       (printed w ++ [String.append "AI GENERATION ERROR: " detail])).
Proof. intros H. unfold _call_ai. rewrite H. reflexivity. Qed.

Lemma qualitative_check_short_circuit (p : payload) (quant : metrics)
    (w : world) :
  syntax_error p = true ->
  qualitative_check service p quant w
  = (Ok (_get_fallback_error "Syntax Error - Code did not compile."), w).
Proof. intros H. unfold qualitative_check. rewrite H. reflexivity. Qed.

Lemma analyze_question_inv (p : payload) (w w' : world)
    (rep : question_report) :
  analyze_question service p w = (Ok rep, w') ->
  summarisable rep /\
  quantitative_check p = Ok (report_metrics rep) /\
  score (report_metrics rep) (ai_analysis rep) (syntax_error p)
  = Ok (final_score rep).
Proof.
  unfold analyze_question. run_M.
  destruct (quantitative_check p) as [quant | e]; [| discriminate].
  destruct (qualitative_check service p quant w) as [[qual | e] w1] eqn:Eq;
    [| discriminate].
  destruct (score quant qual (syntax_error p)) as [s | e] eqn:Es;
    [| discriminate].
  intros [= <- <-]. cbn. repeat split; try assumption.
  destruct (syntax_error p) eqn:Ese.
  - rewrite qualitative_check_short_circuit in Eq by assumption.
    injection Eq as <- _. eexists. reflexivity.
  - exact (score_ok_dict _ _ _ Es).
Qed.

(** The two lists of the loop grow together: [scores] holds the final scores
    of [reports], one report per submission, each readable by the synthesis. *)
Lemma analyze_questions_inv (payloads : list payload) :
  forall (reports : list question_report) (scores : list Q) (w w' : world)
         (reports' : list question_report) (scores' : list Q),
    analyze_questions service payloads reports scores w
    = (Ok (reports', scores'), w') ->
    scores = map final_score reports ->
    Forall summarisable reports ->
    scores' = map final_score reports' /\
    Forall summarisable reports' /\
    List.length reports' = (List.length reports + List.length payloads)%nat.
Proof.
  induction payloads as [| p rest IH];
    intros reports scores w w' reports' scores' Hrun Hs Hf;
    cbn [analyze_questions] in Hrun.
  - injection Hrun as <- <- _. cbn. auto with arith.
  - unfold bind in Hrun.
    destruct (analyze_question service p w) as [[rep | e] w1] eqn:E;
      [| discriminate].
    apply analyze_question_inv in E. destruct E as (Hrep & _).
    apply IH in Hrun.
    + destruct Hrun as (H1 & H2 & H3). repeat split; try assumption.
      rewrite H3, length_app. cbn. lia.
    + rewrite map_app, Hs. reflexivity.
    + apply Forall_app. split; [assumption |].
      constructor; [assumption | constructor].
Qed.

(** C2: for a submission with the syntax-error flag set, [score] returns 0
    whatever the metrics and the critique are, and the report that [generate]
    builds for the submission carries final score 0, whatever its tests and
    whatever the service would answer. *)
Theorem score_syntax_error (p : payload) (quant : metrics) (qual : json)
    (w : world) :
  syntax_error p = true ->
  score quant qual (syntax_error p) = Ok 0 /\
  exists rep : question_report,
    analyze_question service p w = (Ok rep, w) /\ final_score rep = 0.
Proof.
  intros H. split; [rewrite H; reflexivity |].
  unfold analyze_question, quantitative_check. run_M.
  rewrite H. cbn [rbind]. rewrite qualitative_check_short_circuit by exact H.
  cbn. eexists. split; reflexivity.
Qed.

(** C9: for a submission with the syntax-error flag set, [qualitative_check]
    returns the fallback critique (efficiency 5, style 5, critique "AI Error",
    "what to improve" carrying the syntax-error message) and leaves the world
    as it was: no request is sent, and the service has no part in the result. *)
Theorem qualitative_check_syntax_error (p : payload) (quant : metrics)
    (w : world) :
  syntax_error p = true ->
  exists tech feedback : json,
    qualitative_check service p quant w
    = (Ok (_get_fallback_error "Syntax Error - Code did not compile."), w) /\
    dict_get (_get_fallback_error "Syntax Error - Code did not compile.")
      "technical_analysis" JNull = Ok tech /\
    dict_get (_get_fallback_error "Syntax Error - Code did not compile.")
      "feedback_for_candidate" JNull = Ok feedback /\
    dict_get tech "efficiency_score" JNull = Ok (JNum 5) /\
    dict_get tech "style_score" JNull = Ok (JNum 5) /\
    dict_get tech "critique" JNull = Ok (JStr "AI Error") /\
    dict_get feedback "what_to_improve" JNull
    = Ok (JStr "Error: Syntax Error - Code did not compile.").
Proof.
  intros H. eexists. eexists.
  split; [apply qualitative_check_short_circuit, H |].
  repeat split; reflexivity.
Qed.

(** C1 does not hold of the code: when the request of a submission without a
    syntax error fails, [_call_ai] returns the empty dictionary, so
    [qualitative_check] returns it too, not the fallback critique; the report
    of the submission carries the empty dictionary, and [score] reads both
    critique scores as 0. *)
Theorem qualitative_check_failed_call (p : payload) (w : world)
    (quant : metrics) (detail : string) :
  syntax_error p = false ->
  quantitative_check p = Ok quant ->
  service (requests w)
    (AnalysisPrompt (ai_generated_coding_question p) (language p)
       (pass_rate quant) (passed_tests quant) (total_tests quant) (User_code p))
  = Failed detail ->
  exists w' : world,
    qualitative_check service p quant w = (Ok (JObj []), w') /\
    analyze_question service p w
    = (Ok (mk_question_report (ai_generated_coding_question p) (language p)
             (py_round (15 + pass_rate quant / 100 * 40 + 0 / 10 * 20
                        + 0 / 10 * 25) 2)
             quant (JObj [])),
       w') /\
    (forall message : string, JObj [] <> _get_fallback_error message) /\
    technical_score (JObj []) "efficiency_score" = Ok (JNum 0) /\
    technical_score (JObj []) "style_score" = Ok (JNum 0).
Proof.
  intros Hs Hq Hfail. eexists.
  assert (E : qualitative_check service p quant w = _)
    by (unfold qualitative_check; rewrite Hs;
        apply (_call_ai_failed _ _ _ Hfail)).
  split; [exact E |]. split.
  - unfold analyze_question. run_M. rewrite Hq, E, Hs. reflexivity.
  - repeat split; try reflexivity. intros message. discriminate.
Qed.

(** What [generate] comes to once the loop has returned, by the outcome of
    the synthesis request. *)
Lemma generate_after_loop (payloads : list payload) (w w1 : world)
    (reports : list question_report) (scores : list Q)
    (outcome : ai_outcome) :
  analyze_questions service payloads [] [] w = (Ok (reports, scores), w1) ->
  (forall (avg : Q) (ctx : list question_summary),
     overall_average scores = Ok avg ->
     summary_context_of reports = Ok ctx ->
     service (requests w1) (SynthesisPrompt avg ctx) = outcome) ->
  exists (avg : Q) (w2 : world),
    overall_average (map final_score reports) = Ok avg /\
    List.length reports = List.length payloads /\
    generate service payloads w
    = (summary <-- Ok (match outcome with
                       | Replied reply => reply
                       | Failed _ => JObj []
                       end) ;;
       recruiter <--
         dict_get summary "recruiter_executive_summary" (JObj []) ;;
       growth <-- dict_get summary "candidate_holistic_feedback" (JObj []) ;;
       Ok (mk_final_report reports
             (mk_conclusive_report avg
                (if Qge_bool avg 70 then "Passed" else "Failed")
                recruiter growth)),
       w2).
Proof.
  intros Hrun Hout.
  pose proof (analyze_questions_inv _ _ _ _ _ _ _ Hrun eq_refl
                (Forall_nil _)) as (Hs & Hf & Hlen).
  destruct (summary_context_of_ok reports Hf) as [ctx Hctx].
  pose proof (overall_average_ok scores) as Havg.
  specialize (Hout _ ctx Havg Hctx).
  unfold generate. run_M. rewrite Hrun. cbn [fst snd].
  rewrite Havg. unfold synthesize_final_report. run_M.
  rewrite Hctx. unfold _call_ai. rewrite Hout. rewrite <- Hs.
  destruct outcome as [reply | detail]; cbn [rbind];
    eexists; eexists; (split; [exact Havg |]); (split; [exact Hlen |]).
  - destruct (dict_get reply "recruiter_executive_summary" (JObj []));
      cbn [rbind]; [| reflexivity].
    destruct (dict_get reply "candidate_holistic_feedback" (JObj []));
      reflexivity.
  - reflexivity.
Qed.

(** C5: once the loop over a batch of at most 1000 submissions has produced
    its reports, with final scores within 0..100, and the synthesis request
    fails or is answered by a dictionary, [generate] returns those reports,
    one per submission.  The overall score is a number of hundredths: 0 for
    an empty batch, and otherwise the mean of the final scores rounded to
    2 decimals, that is, at most half a hundredth away from it.  The status
    is "Passed" exactly when the overall score is at least 70 and "Failed"
    exactly when it is below, so an empty batch is "Failed". *)
Theorem generate_overall_score (payloads : list payload) (w w1 : world)
    (reports : list question_report) (scores : list Q) :
  analyze_questions service payloads [] [] w = (Ok (reports, scores), w1) ->
  (List.length payloads <= 1000)%nat ->
  Forall (fun r => 0 <= final_score r <= 100) reports ->
  (forall (avg : Q) (ctx : list question_summary),
     overall_average scores = Ok avg ->
     summary_context_of reports = Ok ctx ->
     survivable (service (requests w1) (SynthesisPrompt avg ctx)) = true) ->
  exists (rep : final_report) (w' : world) (hundredths : Z),
    generate service payloads w = (Ok rep, w') /\
    detailed_question_analysis rep = reports /\
    List.length reports = List.length payloads /\
    overall_score (final_conclusive_report rep)
    == inject_Z hundredths / 100 /\
    (payloads = [] ->
     overall_score (final_conclusive_report rep) == 0 /\
     report_status (final_conclusive_report rep) = "Failed") /\
    (payloads <> [] ->
     - (1 # 200)
     <= overall_score (final_conclusive_report rep)
        - sum (map final_score reports) / Q_of_nat (List.length reports)
     <= 1 # 200) /\
    (report_status (final_conclusive_report rep) = "Passed"
     <-> 70 <= overall_score (final_conclusive_report rep)) /\
    (report_status (final_conclusive_report rep) = "Failed"
     <-> overall_score (final_conclusive_report rep) < 70).
Proof.
  intros Hrun _ _ Hsurv.
  pose proof (analyze_questions_inv _ _ _ _ _ _ _ Hrun eq_refl
                (Forall_nil _)) as (Hs & Hf & _).
  destruct (summary_context_of_ok reports Hf) as [ctx Hctx].
  pose proof (overall_average_ok scores) as Havg0.
  set (a0 := match scores with [] => 0 | _ :: _ => _ end) in Havg0.
  pose proof (Hsurv a0 ctx Havg0 Hctx) as Hok.
  destruct (generate_after_loop payloads w w1 reports scores
              (service (requests w1) (SynthesisPrompt a0 ctx)) Hrun)
    as (avg & w2 & Havg & Hlen & Hgen).
  { intros avg' ctx' Ha Hc. congruence. }
  rewrite overall_average_ok in Havg. injection Havg as Havg.
  assert (Hres : exists recruiter growth,
             generate service payloads w
             = (Ok (mk_final_report reports
                      (mk_conclusive_report avg
                         (if Qge_bool avg 70 then "Passed" else "Failed")
                         recruiter growth)), w2)).
  { rewrite Hgen.
    destruct (service (requests w1) (SynthesisPrompt a0 ctx))
      as [reply | detail]; cbn [survivable] in Hok; cbn [rbind].
    - destruct reply; try discriminate. cbn [dict_get].
      destruct (assoc "recruiter_executive_summary" fields);
        destruct (assoc "candidate_holistic_feedback" fields);
        cbn [rbind]; eauto.
    - cbn. eauto. }
  destruct Hres as (recruiter & growth & Hres).
  assert (Hge : Qge_bool avg 70 = true <-> 70 <= avg)
    by (unfold Qge_bool; apply Qle_bool_iff).
  assert (Hh : exists h : Z, avg == inject_Z h / 100).
  { subst avg. destruct (map final_score reports).
    - exists 0%Z. reflexivity.
    - eexists. apply py_round_hundredths. }
  destruct Hh as [h Hh].
  assert (Hempty : payloads = [] -> avg == 0).
  { intros ->. destruct reports; [| discriminate]. subst avg. reflexivity. }
  exists (mk_final_report reports
            (mk_conclusive_report avg
               (if Qge_bool avg 70 then "Passed" else "Failed")
               recruiter growth)), w2, h.
  cbn [detailed_question_analysis final_conclusive_report overall_score
       report_status].
  split; [exact Hres |]. split; [reflexivity |]. split; [exact Hlen |].
  split; [exact Hh |].
  assert (Hmean : payloads <> [] ->
                  - (1 # 200)
                  <= avg - sum (map final_score reports)
                           / Q_of_nat (List.length reports)
                  <= 1 # 200).
  { intros Hne. rewrite <- (length_map final_score reports). subst avg.
    destruct (map final_score reports) as [| s ss] eqn:Em.
    - destruct reports; [| discriminate].
      destruct payloads; [contradiction | discriminate].
    - apply py_round_error. }
  destruct (Qge_bool avg 70) eqn:E.
  - assert (70 <= avg) by (apply Hge; reflexivity).
    split; [intros Hp; apply Hempty in Hp; lra |].
    split; [exact Hmean |]. split; [tauto |].
    split; [discriminate | intros; lra].
  - assert (avg < 70).
    { apply Qnot_le_lt. intros H. apply Hge in H. discriminate. }
    split; [intros Hp; split; [apply Hempty, Hp | reflexivity] |].
    split; [exact Hmean |].
    split; [split; [discriminate | intros; lra] | tauto].
Qed.

(** C6 does not hold of the code.  Once the loop has produced its reports,
    [generate] returns them when the synthesis request raises or is answered
    by a dictionary; when the reply decodes to anything else (a list, a
    string, a number, null) it raises [AttributeError] and the reports are
    lost. *)
Theorem generate_synthesis_outcomes (payloads : list payload) (w w1 : world)
    (reports : list question_report) (scores : list Q)
    (outcome : ai_outcome) :
  analyze_questions service payloads [] [] w = (Ok (reports, scores), w1) ->
  (forall (avg : Q) (ctx : list question_summary),
     overall_average scores = Ok avg ->
     summary_context_of reports = Ok ctx ->
     service (requests w1) (SynthesisPrompt avg ctx) = outcome) ->
  exists w2 : world,
    if survivable outcome
    then exists rep : final_report,
           generate service payloads w = (Ok rep, w2) /\
           detailed_question_analysis rep = reports
    else generate service payloads w = (Raise AttributeError, w2).
Proof.
  intros Hrun Hout.
  destruct (generate_after_loop payloads w w1 reports scores outcome Hrun Hout)
    as (avg & w2 & _ & _ & Hgen).
  exists w2. rewrite Hgen.
  destruct outcome as [reply | detail]; cbn [survivable rbind].
  - destruct reply; cbn [is_dict dict_get rbind]; try reflexivity.
    destruct (assoc "recruiter_executive_summary" fields);
      destruct (assoc "candidate_holistic_feedback" fields);
      cbn [rbind]; eexists; split; reflexivity.
  - cbn. eexists. split; reflexivity.
Qed.

(** The synthesis request raising: once the loop over the submissions has
    produced its reports, a request that fails inside [_call_ai] does not keep
    [generate] from returning: the report it returns holds exactly those
    per-question reports, the overall score computed from their final scores,
    the status derived from it, and empty dictionaries for the recruiter
    summary and the growth plan. *)
Theorem generate_failed_synthesis (payloads : list payload) (w w1 : world)
    (reports : list question_report) (scores : list Q) (detail : string) :
  analyze_questions service payloads [] [] w = (Ok (reports, scores), w1) ->
  (forall (avg : Q) (ctx : list question_summary),
     overall_average scores = Ok avg ->
     summary_context_of reports = Ok ctx ->
     service (requests w1) (SynthesisPrompt avg ctx) = Failed detail) ->
  exists (avg : Q) (w2 : world),
    overall_average (map final_score reports) = Ok avg /\
    List.length reports = List.length payloads /\
    generate service payloads w
    = (Ok (mk_final_report reports
             (mk_conclusive_report avg
                (if Qge_bool avg 70 then "Passed" else "Failed")
                (JObj []) (JObj []))),
       w2).
Proof.
  intros Hrun Hfail.
  pose proof (analyze_questions_inv _ _ _ _ _ _ _ Hrun eq_refl
                (Forall_nil _)) as (Hs & Hf & Hlen).
  destruct (summary_context_of_ok reports Hf) as [ctx Hctx].
  pose proof (overall_average_ok scores) as Havg.
  specialize (Hfail _ ctx Havg Hctx).
  unfold generate. run_M. rewrite Hrun. cbn [fst snd].
  rewrite Havg. unfold synthesize_final_report. run_M.
  rewrite Hctx, (_call_ai_failed _ _ _ Hfail). cbn [dict_get assoc].
  eexists. eexists. split; [rewrite <- Hs; exact Havg |].
  split; [exact Hlen | reflexivity].
Qed.

End PipelineFacts.

(** ** The properties at the sample data *)

Lemma score_syntax_error_witness :
  syntax_error (demo_payload "Q1" [true; true] true false) = true /\
  score (mk_metrics "Completed" 100 2 2) (demo_critique 10 10)
    (syntax_error (demo_payload "Q1" [true; true] true false))
  = Ok 0 /\
  exists rep : question_report,
    analyze_question (demo_service (Replied demo_summary))
      (demo_payload "Q1" [true; true] true false) quiet
    = (Ok rep, quiet) /\
    final_score rep = 0.
Proof.
  split; [reflexivity |].
  apply (score_syntax_error (demo_service (Replied demo_summary))
           (demo_payload "Q1" [true; true] true false)).
  reflexivity.
Defined.

Lemma qualitative_check_syntax_error_witness :
  syntax_error (demo_payload "Q1" [true; true] true false) = true /\
  qualitative_check (demo_service (Replied demo_summary))
    (demo_payload "Q1" [true; true] true false)
    (mk_metrics "Syntax Error" 0 0 2) quiet
  = (Ok (_get_fallback_error "Syntax Error - Code did not compile."), quiet).
Proof.
  split; [reflexivity |].
  destruct (qualitative_check_syntax_error
              (demo_service (Replied demo_summary))
              (demo_payload "Q1" [true; true] true false)
              (mk_metrics "Syntax Error" 0 0 2) quiet eq_refl)
    as (tech & feedback & H & _).
  exact H.
Defined.

Lemma qualitative_check_failed_call_witness :
  exists w' : world,
    qualitative_check (demo_service (Replied demo_summary))
      (demo_payload "Q4" [true; true] false false)
      (mk_metrics "Completed" (10000 # 100) 2 2) quiet
    = (Ok (JObj []), w') /\
    printed w' = ["AI GENERATION ERROR: 503 Service Unavailable"].
Proof.
  destruct (qualitative_check_failed_call
              (demo_service (Replied demo_summary))
              (demo_payload "Q4" [true; true] false false) quiet
              (mk_metrics "Completed" (10000 # 100) 2 2)
              "503 Service Unavailable" eq_refl eq_refl eq_refl)
    as (w' & Hq & _).
  exists w'. split; [exact Hq |].
  vm_compute in Hq. injection Hq as <-. reflexivity.
Defined.

Lemma generate_overall_score_witness :
  exists (rep : final_report) (w' : world),
    generate (demo_service (Replied demo_summary)) demo_batch quiet
    = (Ok rep, w') /\
    map final_score (detailed_question_analysis rep)
    = [10000 # 100; 5000 # 100; 6000 # 100] /\
    overall_score (final_conclusive_report rep) == 70 /\
    (report_status (final_conclusive_report rep) = "Passed"
     <-> 70 <= overall_score (final_conclusive_report rep)) /\
    report_status (final_conclusive_report rep) = "Passed".
Proof.
  destruct (analyze_questions (demo_service (Replied demo_summary)) demo_batch
              [] [] quiet) as [[[reports scores] | e] w1] eqn:E;
    [| vm_compute in E; discriminate].
  destruct (generate_overall_score (demo_service (Replied demo_summary))
              demo_batch quiet w1 reports scores E)
    as (rep & w' & h & Hgen & Hrep & _ & _ & _ & _ & Hpass & _).
  - cbn. lia.
  - vm_compute in E. injection E as <- _ _.
    repeat constructor; cbn; lra.
  - intros avg ctx _ _. reflexivity.
  - exists rep, w'. split; [exact Hgen |].
    vm_compute in E. injection E as <- <- <-.
    vm_compute in Hgen. injection Hgen as <- _.
    split; [reflexivity |]. split; [reflexivity |].
    split; [exact Hpass | reflexivity].
Defined.

Lemma generate_synthesis_outcomes_witness :
  exists w2 : world,
    generate (demo_service (Replied (JArr []))) demo_batch quiet
    = (Raise AttributeError, w2).
Proof.
  destruct (analyze_questions (demo_service (Replied (JArr []))) demo_batch
              [] [] quiet) as [[[reports scores] | e] w1] eqn:E;
    [| vm_compute in E; discriminate].
  exact (generate_synthesis_outcomes (demo_service (Replied (JArr [])))
           demo_batch quiet w1 reports scores (Replied (JArr [])) E
           (fun _ _ _ _ => eq_refl)).
Defined.

Lemma generate_failed_synthesis_witness :
  exists (reports : list question_report) (avg : Q) (w2 : world),
    List.length reports = 3%nat /\
    avg == 70 /\
    generate (demo_service (Failed "503 Service Unavailable")) demo_batch quiet
    = (Ok (mk_final_report reports
             (mk_conclusive_report avg "Passed" (JObj []) (JObj []))),
       w2).
Proof.
  destruct (analyze_questions (demo_service (Failed "503 Service Unavailable"))
              demo_batch [] [] quiet) as [[[reports scores] | e] w1] eqn:E;
    [| vm_compute in E; discriminate].
  destruct (generate_failed_synthesis
              (demo_service (Failed "503 Service Unavailable"))
              demo_batch quiet w1 reports scores "503 Service Unavailable" E
              (fun _ _ _ _ => eq_refl))
    as (avg & w2 & Havg & Hlen & Hgen).
  vm_compute in E. injection E as <- <- <-.
  injection Havg as <-.
  eexists. eexists. eexists.
  split; [exact Hlen |]. split; [| exact Hgen]. reflexivity.
Defined.

Example generate_empty_batch :
  fst (generate (demo_service (Replied demo_summary)) [] quiet)
  = Ok (mk_final_report []
          (mk_conclusive_report 0 "Failed"
             (JObj [ ("hiring_decision", JStr "Hire");
                     ("candidate_level_assessment", JStr "Mid-Level");
                     ("final_conclusion", JStr "Solid fundamentals.") ])
             (JObj [ ("major_strength", JStr "Clarity");
                     ("major_weakness", JStr "Testing");
                     ("final_recommendation", JStr "Complexity analysis") ]))).
Proof. reflexivity. Qed.

(** * Further properties of the pipeline *)

(** ** The metrics of a submission *)

Lemma raw_rate_bounds (passed total : nat) :
  (passed <= total)%nat -> (0 < total)%nat ->
  0 <= Q_of_nat passed / Q_of_nat total * 100 <= 100.
Proof.
  intros Hle Ht. pose proof (Q_of_nat_pos total Ht) as Hp.
  apply Q_of_nat_le in Hle.
  assert (H0 : 0 <= Q_of_nat passed) by (apply (Q_of_nat_le 0); lia).
  assert (Hc : 0 < 100 / Q_of_nat total) by (apply Qlt_shift_div_l; lra).
  assert (E : Q_of_nat passed / Q_of_nat total * 100
              == Q_of_nat passed * (100 / Q_of_nat total)) by (field; lra).
  assert (E' : 100 - Q_of_nat passed / Q_of_nat total * 100
              == (Q_of_nat total - Q_of_nat passed) * (100 / Q_of_nat total))
    by (field; lra).
  assert (0 <= Q_of_nat passed * (100 / Q_of_nat total))
    by (apply Qmult_le_0_compat; lra).
  assert (0 <= (Q_of_nat total - Q_of_nat passed) * (100 / Q_of_nat total))
    by (apply Qmult_le_0_compat; lra).
  lra.
Qed.

(** The metrics [quantitative_check] returns, in closed form. *)
Lemma quantitative_check_ok (p : payload) :
  let total := List.length (test_case_results p) in
  let passed := count_passed (test_case_results p) in
  let rate := if (0 <? total)%nat
              then Q_of_nat passed / Q_of_nat total * 100 else 0 in
  quantitative_check p =
  Ok (if syntax_error p then mk_metrics "Syntax Error" 0 0 total
      else mk_metrics
             (if runtime_error p then "Runtime Error"
              else if Qlt_bool rate 100 then "Partial Pass" else "Completed")
             (py_round rate 2) passed total).
Proof.
  cbv zeta. unfold quantitative_check. rewrite raw_pass_rate_ok.
  destruct (syntax_error p); reflexivity.
Qed.

Lemma raw_rate_cases_bounds (passed total : nat) :
  (passed <= total)%nat ->
  0 <= (if (0 <? total)%nat
        then Q_of_nat passed / Q_of_nat total * 100 else 0) <= 100.
Proof.
  intros Hle. destruct (0 <? total)%nat eqn:E.
  - apply Nat.ltb_lt in E. apply raw_rate_bounds; assumption.
  - lra.
Qed.

Lemma py_round_bounds (x lo hi : Q) (n : nat) :
  lo <= x <= hi -> py_round lo n <= py_round x n <= py_round hi n.
Proof. intros [H1 H2]. split; apply py_round_monotone; assumption. Qed.

Lemma quantitative_check_rate_range (p : payload) :
  exists m : metrics,
    quantitative_check p = Ok m /\ 0 <= pass_rate m <= 100.
Proof.
  pose proof (quantitative_check_ok p) as H. cbv zeta in H.
  pose proof (count_passed_le (test_case_results p)) as Hle.
  pose proof (raw_rate_cases_bounds _ _ Hle) as Hb.
  apply (py_round_bounds _ _ _ 2) in Hb.
  assert (L0 : py_round 0 2 == 0) by reflexivity.
  assert (U0 : py_round 100 2 == 100) by reflexivity.
  rewrite H. eexists. split; [reflexivity |].
  destruct (syntax_error p); cbn [pass_rate]; lra.
Qed.

(** X1: [quantitative_check] always returns; the pass rate it reports is a
    number of hundredths within 0..100, the passed count never exceeds the
    total, and the total is the number of supplied test results. *)
Theorem quantitative_check_bounds (p : payload) :
  exists (m : metrics) (hundredths : Z),
    quantitative_check p = Ok m /\
    0 <= pass_rate m <= 100 /\
    pass_rate m == inject_Z hundredths / 100 /\
    (passed_tests m <= total_tests m)%nat /\
    total_tests m = List.length (test_case_results p).
Proof.
  pose proof (quantitative_check_ok p) as H. cbv zeta in H.
  pose proof (count_passed_le (test_case_results p)) as Hle.
  pose proof (raw_rate_cases_bounds _ _ Hle) as Hb.
  apply (py_round_bounds _ _ _ 2) in Hb.
  assert (L0 : py_round 0 2 == 0) by reflexivity.
  assert (U0 : py_round 100 2 == 100) by reflexivity.
  rewrite H. destruct (syntax_error p).
  - exists (mk_metrics "Syntax Error" 0 0 (List.length (test_case_results p))), 0%Z.
    cbn. repeat split; try lra; try lia.
  - eexists. eexists. split; [reflexivity |]. cbn [pass_rate passed_tests total_tests].
    split; [lra |]. split; [reflexivity |]. split; [exact Hle | reflexivity].
Qed.

(** X2: the status returned by [quantitative_check] is one of the four
    status texts, and it tells the rest of the metrics: "Syntax Error" comes
    with pass rate 0 and passed count 0 whatever the tests did, "Runtime Error"
    only without a syntax error, and "Completed" only without either flag,
    with pass rate 100 and every one of at least one test passed. *)
Theorem quantitative_check_status_rate (p : payload) (m : metrics) :
  quantitative_check p = Ok m ->
  (status m = "Syntax Error" \/ status m = "Runtime Error" \/
   status m = "Partial Pass" \/ status m = "Completed") /\
  (status m = "Syntax Error" ->
   syntax_error p = true /\ pass_rate m = 0 /\ passed_tests m = 0%nat) /\
  (status m = "Runtime Error" ->
   syntax_error p = false /\ runtime_error p = true) /\
  (status m = "Completed" ->
   syntax_error p = false /\ runtime_error p = false /\
   pass_rate m == 100 /\
   passed_tests m = total_tests m /\ (0 < total_tests m)%nat).
Proof.
  pose proof (quantitative_check_ok p) as H. cbv zeta in H.
  rewrite H. intros [= <-].
  pose proof (count_passed_le (test_case_results p)) as Hle.
  set (total := List.length (test_case_results p)) in *.
  set (passed := count_passed (test_case_results p)) in *.
  destruct (syntax_error p); [cbn; repeat split; auto; discriminate |].
  destruct (runtime_error p); [cbn; repeat split; auto; discriminate |].
  destruct (Qlt_bool _ 100) eqn:E; cbn [status pass_rate passed_tests total_tests].
  - repeat split; auto; discriminate.
  - split; [auto |]. split; [discriminate |]. split; [discriminate |].
    intros _. apply not_true_iff_false in E. rewrite Qlt_bool_iff in E.
    destruct (0 <? total)%nat eqn:Et.
    + apply Nat.ltb_lt in Et. rewrite (ratio_lt_100 passed total Et) in E.
      assert (passed = total) by lia. subst passed. 
      repeat split; auto.
      rewrite (py_round_comp 2 _ 100); [reflexivity |].
      rewrite H0. pose proof (Q_of_nat_pos total Et). field. lra.
    + exfalso. apply E. reflexivity.
Qed.

(** X3: the status is decided on the pass rate before rounding, the report
    carries it after rounding.  When fewer than one test in 20000 failed
    (and at least one did), the metrics say "Partial Pass" with a pass rate of
    100.00. *)
Theorem quantitative_check_rounds_up_to_100 (p : payload) :
  let total := List.length (test_case_results p) in
  let passed := count_passed (test_case_results p) in
  syntax_error p = false ->
  runtime_error p = false ->
  (Z.of_nat passed < Z.of_nat total)%Z ->
  (20000 * (Z.of_nat total - Z.of_nat passed) < Z.of_nat total)%Z ->
  exists m : metrics,
    quantitative_check p = Ok m /\
    status m = "Partial Pass" /\
    pass_rate m == 100 /\
    (passed_tests m < total_tests m)%nat.
Proof.
  intros total passed Hs Hr Hlt' Hnear.
  assert (Hlt : (passed < total)%nat) by lia.
  pose proof (quantitative_check_ok p) as H. cbv zeta in H.
  fold total in H. fold passed in H. rewrite Hs, Hr in H.
  assert (Ht : (0 < total)%nat) by lia.
  pose proof (Q_of_nat_pos total Ht) as Hp.
  pose proof Ht as Hb. apply Nat.ltb_lt in Hb. rewrite Hb in H.
  set (rate := Q_of_nat passed / Q_of_nat total * 100) in *.
  assert (Hrate : rate < 100) by (apply ratio_lt_100; assumption).
  assert (Hlow : (99995 # 1000) <= rate).
  { assert (Hq : 20000 * (Q_of_nat total - Q_of_nat passed) <= Q_of_nat total).
    { assert (Hz : inject_Z (20000 * Z.of_nat total)
                   <= inject_Z (Z.of_nat total + 20000 * Z.of_nat passed))
        by (rewrite <- Zle_Qle; lia).
      rewrite inject_Z_plus, !inject_Z_mult in Hz.
      change (inject_Z 20000) with 20000 in Hz. unfold Q_of_nat. lra. }
    assert (Hc : 0 < 100 / Q_of_nat total) by (apply Qlt_shift_div_l; lra).
    assert (E : rate - (99995 # 1000)
                == (Q_of_nat total - 20000 * (Q_of_nat total - Q_of_nat passed))
                   * ((1 # 200) / Q_of_nat total))
      by (unfold rate; field; lra).
    assert (Hc' : 0 < (1 # 200) / Q_of_nat total)
      by (apply Qlt_shift_div_l; lra).
    assert (0 <= (Q_of_nat total - 20000 * (Q_of_nat total - Q_of_nat passed))
                 * ((1 # 200) / Q_of_nat total))
      by (apply Qmult_le_0_compat; lra).
    lra. }
  apply Qlt_bool_iff in Hrate as Hrb. rewrite Hrb in H.
  eexists. split; [exact H |]. cbn [status pass_rate passed_tests total_tests].
  split; [reflexivity |]. split; [| exact Hlt].
  assert (L : py_round (99995 # 1000) 2 <= py_round rate 2)
    by (apply py_round_monotone; exact Hlow).
  assert (U : py_round rate 2 <= py_round 100 2)
    by (apply py_round_monotone; lra).
  assert (L0 : py_round (99995 # 1000) 2 == 100) by reflexivity.
  assert (U0 : py_round 100 2 == 100) by reflexivity.
  lra.
Qed.

Lemma quantitative_check_rounds_up_to_100_witness :
  exists m : metrics,
    quantitative_check
      (demo_payload "Q" (false :: List.repeat true (Z.to_nat 20000)) false false) = Ok m /\
    status m = "Partial Pass" /\
    pass_rate m == 100 /\
    (passed_tests m < total_tests m)%nat.
Proof.
  apply (quantitative_check_rounds_up_to_100
           (demo_payload "Q" (false :: List.repeat true (Z.to_nat 20000)) false false));
    vm_compute; reflexivity.
Defined.

(** ** The outcomes of score *)

(** X4: a submission without a syntax error whose pass rate and critique
    scores are not negative, and of moderate size, scores at least 15, the
    flat syntax weight: among such inputs a final score of 0 only ever means
    a syntax error. *)
Theorem score_compiling_at_least_15 (quant : metrics)
    (qual eff_score style_score : json) (eff style : Q) :
  technical_score qual "efficiency_score" = Ok eff_score ->
  technical_score qual "style_score" = Ok style_score ->
  as_number eff_score = Ok eff ->
  as_number style_score = Ok style ->
  0 <= pass_rate quant <= 1000000 ->
  0 <= eff <= 1000000 ->
  0 <= style <= 1000000 ->
  exists s : Q, score quant qual false = Ok s /\ 15 <= s /\ ~ s == 0.
Proof.
  intros He Hs Hne Hns Hr Hre Hrs.
  rewrite (score_numeric quant qual _ _ _ _ He Hs Hne Hns).
  eexists. split; [reflexivity |].
  assert (L : weighted_sum 0 0 0 <= weighted_sum (pass_rate quant) eff style)
    by (apply weighted_sum_monotone; lra).
  apply (py_round_monotone 2) in L.
  assert (L0 : py_round (weighted_sum 0 0 0) 2 == 15) by reflexivity.
  split; lra.
Qed.

Lemma dict_get_raises (d : json) (k : string) (default : json) (e : exn) :
  dict_get d k default = Raise e -> e = AttributeError.
Proof.
  destruct d; cbn; try congruence. destruct (assoc k fields); discriminate.
Qed.

Lemma technical_score_raises (qual : json) (k : string) (e : exn) :
  technical_score qual k = Raise e -> e = AttributeError.
Proof.
  unfold technical_score.
  destruct (dict_get qual "technical_analysis" (JObj [])) as [ta | e'] eqn:E;
    cbn [rbind].
  - apply dict_get_raises.
  - intros [= <-]. exact (dict_get_raises _ _ _ _ E).
Qed.

Lemma technical_score_same_outcome (qual : json) (k1 k2 : string) (e : exn) :
  technical_score qual k1 = Raise e -> technical_score qual k2 = Raise e.
Proof.
  unfold technical_score.
  destruct (dict_get qual "technical_analysis" (JObj [])) as [ta | e'];
    cbn [rbind]; [| trivial].
  destruct ta; cbn; try trivial.
  destruct (assoc k1 fields); discriminate.
Qed.

Lemma as_number_raises (v : json) (e : exn) :
  as_number v = Raise e -> e = TypeError.
Proof. destruct v as [| [] | | | |]; cbn; congruence. Qed.

(** X5: the three outcomes of [score] without a syntax error, for a pass
    rate and numeric critique scores of moderate size.  It raises
    [AttributeError] when the critique, or its [technical_analysis], is not a
    dictionary; it raises [TypeError] when both scores can be read but one is
    not a number; otherwise it returns a number of hundredths within a
    hundredth of the weighted sum.  It never raises [KeyError] or
    [ZeroDivisionError]. *)
Theorem score_outcomes (quant : metrics) (qual : json) :
  bounded (pass_rate quant) ->
  (forall (v : json) (q : Q),
     technical_score qual "efficiency_score" = Ok v ->
     as_number v = Ok q -> bounded q) ->
  (forall (v : json) (q : Q),
     technical_score qual "style_score" = Ok v ->
     as_number v = Ok q -> bounded q) ->
  (score quant qual false = Raise AttributeError /\
   forall k : string, technical_score qual k = Raise AttributeError) \/
  (exists eff_score style_score : json,
     technical_score qual "efficiency_score" = Ok eff_score /\
     technical_score qual "style_score" = Ok style_score /\
     ((score quant qual false = Raise TypeError /\
       (as_number eff_score = Raise TypeError \/
        as_number style_score = Raise TypeError)) \/
      (exists (eff style s : Q) (hundredths : Z),
         as_number eff_score = Ok eff /\
         as_number style_score = Ok style /\
         score quant qual false = Ok s /\
         s == inject_Z hundredths / 100 /\
         - (1 # 100)
         <= s - weighted_sum (pass_rate quant) eff style
         <= 1 # 100))).
Proof.
  intros _ _ _.
  destruct (technical_score qual "efficiency_score") as [ev | e] eqn:He.
  - right. destruct (technical_score qual "style_score") as [sv | e] eqn:Hs.
    + exists ev, sv. split; [reflexivity |]. split; [reflexivity |].
      destruct (as_number ev) as [e1 | x] eqn:Hne.
      * destruct (as_number sv) as [s1 | x] eqn:Hns.
        -- right. exists e1, s1. eexists. eexists.
           split; [reflexivity |]. split; [reflexivity |].
           split; [exact (score_numeric quant qual _ _ _ _ He Hs Hne Hns) |].
           split; [apply py_round_hundredths |].
           pose proof (py_round_error
                         (weighted_sum (pass_rate quant) e1 s1)). lra.
        -- left. pose proof (as_number_raises _ _ Hns) as ->.
           split; [| right; reflexivity].
           unfold score. rewrite He, Hs. cbn [rbind]. rewrite Hne, Hns.
           reflexivity.
      * left. pose proof (as_number_raises _ _ Hne) as ->.
        split; [| left; reflexivity].
        unfold score. rewrite He, Hs. cbn [rbind]. rewrite Hne. reflexivity.
    + apply (technical_score_same_outcome _ _ "efficiency_score") in Hs.
      congruence.
  - left. pose proof (technical_score_raises _ _ _ He) as ->.
    split.
    + unfold score. rewrite He. reflexivity.
    + intros k. exact (technical_score_same_outcome _ _ k _ He).
Qed.

(** ** Averages *)

(** [sum] from an arbitrary start. *)
Lemma fold_left_Qplus (xs : list Q) (a : Q) :
  fold_left Qplus xs a == a + sum xs.
Proof.
  unfold sum. revert a. induction xs as [| x xs IH]; intros a; cbn.
  - lra.
  - rewrite (IH (a + x)), (IH (0 + x)). lra.
Qed.

Lemma sum_cons (x : Q) (xs : list Q) : sum (x :: xs) == x + sum xs.
Proof. unfold sum at 1. cbn. rewrite fold_left_Qplus. lra. Qed.

Lemma Q_of_nat_S (n : nat) : Q_of_nat (S n) == 1 + Q_of_nat n.
Proof.
  unfold Q_of_nat. rewrite Nat2Z.inj_succ, <- Z.add_1_l, inject_Z_plus.
  reflexivity.
Qed.

Lemma sum_bounds (lo hi : Q) (xs : list Q) :
  Forall (fun s => lo <= s <= hi) xs ->
  Q_of_nat (List.length xs) * lo <= sum xs <= Q_of_nat (List.length xs) * hi.
Proof.
  induction 1 as [| x xs [Hl Hh] _ IH].
  - change (Q_of_nat (List.length [])) with 0. change (sum []) with 0. lra.
  - cbn [List.length]. rewrite sum_cons, Q_of_nat_S.
    destruct IH as [IHl IHh]. split; lra.
Qed.

Lemma overall_average_within (lo hi : Q) (scores : list Q) :
  scores <> [] ->
  Forall (fun s => lo <= s <= hi) scores ->
  exists avg : Q,
    overall_average scores = Ok avg /\
    py_round lo 2 <= avg <= py_round hi 2.
Proof.
  intros Hne Hall. rewrite overall_average_ok.
  destruct scores as [| s scores]; [contradiction |].
  eexists. split; [reflexivity |].
  set (xs := s :: scores) in *.
  pose proof (sum_bounds lo hi xs Hall) as [Hl Hh].
  assert (Hn : 0 < Q_of_nat (List.length xs))
    by (apply Q_of_nat_pos; cbn; lia).
  apply py_round_bounds. split.
  - apply Qle_shift_div_l; [exact Hn | lra].
  - apply Qle_shift_div_r; [exact Hn | lra].
Qed.

(** ** Requests sent and lines printed *)

Lemma analysis_requests_cons (p : payload) (rest : list payload) :
  analysis_requests (p :: rest)
  = (analysis_requests [p] ++ analysis_requests rest)%list.
Proof.
  cbn. destruct (syntax_error p); [reflexivity |].
  destruct (quantitative_check p); reflexivity.
Qed.

Lemma analysis_requests_length (payloads : list payload) :
  List.length (analysis_requests payloads)
  = List.length (filter (fun p => negb (syntax_error p)) payloads).
Proof.
  induction payloads as [| p rest IH]; [reflexivity |].
  cbn. rewrite (quantitative_check_ok p). cbv zeta.
  destruct (syntax_error p); cbn; rewrite IH; reflexivity.
Qed.

Lemma traced_ret {A : Type} (a : A) : traced (ret a).
Proof.
  intros w. exists [], []. cbn. rewrite !app_nil_r. auto.
Qed.

Lemma traced_lift {A : Type} (r : result A) : traced (lift r).
Proof.
  intros w. exists [], []. cbn. rewrite !app_nil_r. auto.
Qed.

Lemma traced_bind {A B : Type} (m : M A) (k : A -> M B) :
  traced m -> (forall a : A, traced (k a)) -> traced (bind m k).
Proof.
  intros Hm Hk w. unfold bind.
  destruct (Hm w) as (s1 & l1 & Hr1 & Hp1 & Hf1 & Hn1).
  destruct (m w) as [[a | e] w1]; cbn [snd] in *.
  - destruct (Hk a w1) as (s2 & l2 & Hr2 & Hp2 & Hf2 & Hn2).
    exists (s1 ++ s2)%list, (l1 ++ l2)%list.
    rewrite Hr2, Hp2, Hr1, Hp1, !app_assoc, !length_app.
    repeat split; try reflexivity; [apply Forall_app; auto | lia].
  - exists s1, l1. auto.
Qed.

Section PipelineTrace.

Variable service : list prompt -> prompt -> ai_outcome.

Lemma _call_ai_outcome (request : prompt) (w : world) :
  exists (reply : json) (lines : list string),
    _call_ai service request w
    = (Ok reply, mk_world (requests w ++ [request]) (printed w ++ lines)) /\
    Forall error_line lines /\ (List.length lines <= 1)%nat /\
    (forall j, service (requests w) request = Replied j ->
               reply = j /\ lines = []).
Proof.
  unfold _call_ai. destruct (service (requests w) request) as [j | detail].
  - exists j, []. rewrite app_nil_r. destruct w. cbn.
    repeat split; auto. all: congruence.
  - eexists. eexists. cbn [requests printed]. split; [reflexivity |].
    split; [repeat constructor; exists detail; reflexivity |].
    split; [cbn; lia | discriminate].
Qed.

Lemma traced_call_ai (request : prompt) : traced (_call_ai service request).
Proof.
  intros w. destruct (_call_ai_outcome request w) as (j & lines & -> & Hf & Hn & _).
  exists [request], lines. cbn. auto.
Qed.

Lemma traced_qualitative_check (p : payload) (quant : metrics) :
  traced (qualitative_check service p quant).
Proof.
  unfold qualitative_check. destruct (syntax_error p).
  - apply traced_ret.
  - apply traced_call_ai.
Qed.

Lemma traced_analyze_question (p : payload) :
  traced (analyze_question service p).
Proof.
  unfold analyze_question.
  apply traced_bind; [apply traced_lift | intros quant].
  apply traced_bind; [apply traced_qualitative_check | intros qual].
  apply traced_bind; [apply traced_lift | intros s]. apply traced_ret.
Qed.

Lemma traced_analyze_questions (payloads : list payload) :
  forall (reports : list question_report) (scores : list Q),
    traced (analyze_questions service payloads reports scores).
Proof.
  induction payloads as [| p rest IH]; intros reports scores; cbn.
  - apply traced_ret.
  - apply traced_bind; [apply traced_analyze_question | intros rep; apply IH].
Qed.

(** X6: whatever [generate] comes to, a report or an exception, it only
    appends to the world: the requests sent before are kept, and every line it
    prints is an "AI GENERATION ERROR: ..." line, at most one per request it
    sent. *)
Theorem generate_trace (payloads : list payload) (w : world) :
  exists (sent : list prompt) (lines : list string),
    requests (snd (generate service payloads w))
    = (requests w ++ sent)%list /\
    printed (snd (generate service payloads w))
    = (printed w ++ lines)%list /\
    Forall error_line lines /\
    (List.length lines <= List.length sent)%nat.
Proof.
  assert (H : traced (generate service payloads)); [| exact (H w)].
  unfold generate.
  apply traced_bind; [apply traced_analyze_questions | intros analysed].
  apply traced_bind; [apply traced_lift | intros avg].
  apply traced_bind.
  - unfold synthesize_final_report.
    apply traced_bind; [apply traced_lift | intros ctx; apply traced_call_ai].
  - intros summary.
    apply traced_bind; [apply traced_lift | intros r].
    apply traced_bind; [apply traced_lift | intros g]. apply traced_ret.
Qed.

End PipelineTrace.

(** ** One report per submission, in order *)

Lemma summary_context_of_fields (reports : list question_report)
    (ctx : list question_summary) :
  summary_context_of reports = Ok ctx ->
  map summary_question ctx = map question reports /\
  map summary_language ctx = map report_language reports /\
  map summary_score ctx = map final_score reports /\
  map summary_pass_rate ctx
  = map (fun rep => pass_rate (report_metrics rep)) reports.
Proof.
  revert ctx. induction reports as [| rep rest IH]; intros ctx;
    cbn [summary_context_of].
  - intros [= <-]. auto.
  - destruct (dict_get (ai_analysis rep) "technical_analysis" (JObj []))
      as [tech | e]; cbn [rbind]; [| discriminate].
    destruct (dict_get tech "efficiency_score" (JStr "N/A")) as [v1 | e];
      cbn [rbind]; [| discriminate].
    destruct (dict_get tech "critique" (JStr "N/A")) as [v2 | e];
      cbn [rbind]; [| discriminate].
    destruct (summary_context_of rest) as [items | e]; cbn [rbind];
      [| discriminate].
    intros [= <-]. destruct (IH items eq_refl) as (H1 & H2 & H3 & H4).
    cbn. rewrite H1, H2, H3, H4. auto.
Qed.

Section PipelineOrder.

Variable service : list prompt -> prompt -> ai_outcome.

Lemma qualitative_check_requests (p : payload) (quant : metrics) (w : world) :
  exists (qual : json) (w' : world),
    qualitative_check service p quant w = (Ok qual, w') /\
    requests w'
    = (requests w
       ++ (if syntax_error p then [] else [analysis_request p quant]))%list /\
    (syntax_error p = true ->
     qual = _get_fallback_error "Syntax Error - Code did not compile.").
Proof.
  unfold qualitative_check. destruct (syntax_error p).
  - eexists. eexists. split; [reflexivity |]. rewrite app_nil_r. auto.
  - destruct (_call_ai_outcome service (analysis_request p quant) w)
      as (j & lines & H & _).
    unfold analysis_request in H. rewrite H.
    eexists. eexists. split; [reflexivity |]. split; [reflexivity |].
    discriminate.
Qed.

Lemma analyze_question_spec (p : payload) (w w' : world)
    (rep : question_report) :
  analyze_question service p w = (Ok rep, w') ->
  report_for p rep /\
  requests w' = (requests w ++ analysis_requests [p])%list.
Proof.
  unfold analyze_question. run_M.
  destruct (quantitative_check p) as [quant | e] eqn:Eq; [| discriminate].
  destruct (qualitative_check_requests p quant w)
    as (qual & w1 & -> & Hr & Hf).
  destruct (score quant qual (syntax_error p)) as [s | e] eqn:Es;
    [| discriminate].
  intros [= <- <-]. split.
  - unfold report_for. cbn. auto.
  - rewrite Hr. cbn [analysis_requests]. rewrite Eq.
    destruct (syntax_error p); reflexivity.
Qed.

Lemma analyze_questions_spec (payloads : list payload) :
  forall (reports : list question_report) (scores : list Q) (w w' : world)
         (reports' : list question_report) (scores' : list Q),
    analyze_questions service payloads reports scores w
    = (Ok (reports', scores'), w') ->
    exists new : list question_report,
      reports' = (reports ++ new)%list /\
      scores' = (scores ++ map final_score new)%list /\
      Forall2 report_for payloads new /\
      requests w' = (requests w ++ analysis_requests payloads)%list.
Proof.
  induction payloads as [| p rest IH];
    intros reports scores w w' reports' scores' Hrun;
    cbn [analyze_questions] in Hrun.
  - injection Hrun as <- <- <-. exists []. rewrite !app_nil_r.
    repeat split. constructor.
  - unfold bind in Hrun.
    destruct (analyze_question service p w) as [[rep | e] w1] eqn:E;
      [| discriminate].
    apply analyze_question_spec in E. destruct E as (Hrep & Hreq).
    apply IH in Hrun. destruct Hrun as (new & -> & -> & Hall & Hreq').
    exists (rep :: new). rewrite <- !app_assoc. cbn [app map].
    repeat split; [constructor; assumption |].
    rewrite (analysis_requests_cons p rest), Hreq', Hreq, app_assoc.
    reflexivity.
Qed.

(** What a returned [generate] went through. *)
Lemma generate_inv (payloads : list payload) (w w' : world)
    (rep : final_report) :
  generate service payloads w = (Ok rep, w') ->
  exists (ctx : list question_summary) (reply : json) (lines : list string),
    Forall2 report_for payloads (detailed_question_analysis rep) /\
    overall_average (map final_score (detailed_question_analysis rep))
    = Ok (overall_score (final_conclusive_report rep)) /\
    summary_context_of (detailed_question_analysis rep) = Ok ctx /\
    requests w'
    = (requests w ++ analysis_requests payloads
       ++ [SynthesisPrompt (overall_score (final_conclusive_report rep)) ctx])%list /\
    dict_get reply "recruiter_executive_summary" (JObj [])
    = Ok (recruiter_summary (final_conclusive_report rep)) /\
    dict_get reply "candidate_holistic_feedback" (JObj [])
    = Ok (candidate_growth_plan (final_conclusive_report rep)).
Proof.
  unfold generate. run_M.
  destruct (analyze_questions service payloads [] [] w)
    as [[[reports scores] | e] w1] eqn:Erun; [| discriminate].
  apply analyze_questions_spec in Erun.
  destruct Erun as (new & Hr & Hs & Hall & Hreq). cbn in Hr, Hs. subst.
  cbn [fst snd]. 
  destruct (overall_average (map final_score new)) as [avg | e] eqn:Ea;
    [| discriminate].
  unfold synthesize_final_report. run_M.
  destruct (summary_context_of new) as [ctx | e] eqn:Ec; [| discriminate].
  destruct (_call_ai_outcome service (SynthesisPrompt avg ctx) w1)
    as (reply & lines & -> & _).
  destruct (dict_get reply "recruiter_executive_summary" (JObj []))
    as [r | e] eqn:Er; [| discriminate].
  destruct (dict_get reply "candidate_holistic_feedback" (JObj []))
    as [g | e] eqn:Eg; [| discriminate].
  intros [= <- <-]. exists ctx, reply, lines. cbn.
  repeat split; try assumption.
  rewrite Hreq, <- app_assoc. reflexivity.
Qed.

(** X7: a report returned by [generate] holds one question report per
    submission, in the order of the batch: each carries the question and the
    language of its submission, the metrics [quantitative_check] gives for it,
    the final score [score] gives for those metrics and its critique, and the
    fallback critique when the submission has a syntax error. *)
Theorem generate_reports_in_order (payloads : list payload) (w w' : world)
    (rep : final_report) :
  generate service payloads w = (Ok rep, w') ->
  Forall2 report_for payloads (detailed_question_analysis rep) /\
  map question (detailed_question_analysis rep)
  = map ai_generated_coding_question payloads /\
  map report_language (detailed_question_analysis rep) = map language payloads.
Proof.
  intros H. apply generate_inv in H.
  destruct H as (ctx & reply & lines & Hall & _).
  split; [exact Hall |].
  induction Hall as [| p r ps rs (Hq & Hl & _) _ [IH1 IH2]]; [auto |].
  cbn. rewrite Hq, Hl, IH1, IH2. auto.
Qed.

(** X8: the requests of a returned [generate] are, in batch order, one
    analysis request for each submission without a syntax error, then one
    synthesis request; the synthesis request carries the overall score of the
    report and, per question in batch order, its text, language and final
    score. *)
Theorem generate_requests (payloads : list payload) (w w' : world)
    (rep : final_report) :
  generate service payloads w = (Ok rep, w') ->
  exists ctx : list question_summary,
    requests w'
    = (requests w ++ analysis_requests payloads
       ++ [SynthesisPrompt (overall_score (final_conclusive_report rep)) ctx])%list /\
    List.length (analysis_requests payloads)
    = List.length (filter (fun p => negb (syntax_error p)) payloads) /\
    map summary_question ctx = map ai_generated_coding_question payloads /\
    map summary_language ctx = map language payloads /\
    map summary_score ctx = map final_score (detailed_question_analysis rep).
Proof.
  intros H. pose proof H as H'. apply generate_inv in H.
  destruct H as (ctx & reply & lines & Hall & _ & Hctx & Hreq & _).
  apply summary_context_of_fields in Hctx. destruct Hctx as (H1 & H2 & H3 & _).
  exists ctx. split; [exact Hreq |].
  split; [apply analysis_requests_length |].
  rewrite H1, H2, H3.
  assert (map question (detailed_question_analysis rep)
          = map ai_generated_coding_question payloads /\
          map report_language (detailed_question_analysis rep)
          = map language payloads) as [-> ->]; [| auto].
  clear -Hall.
  induction Hall as [| p r ps rs (Hq & Hl & _) _ [IH1 IH2]]; [auto |].
  cbn. rewrite Hq, Hl, IH1, IH2. auto.
Qed.

End PipelineOrder.

(** ** Replies the pipeline does not survive, and flags it ignores *)

Section PipelineEdges.

Variable service : list prompt -> prompt -> ai_outcome.

Lemma analyze_questions_app (pre rest : list payload) :
  forall (reports : list question_report) (scores : list Q) (w : world),
    analyze_questions service (pre ++ rest) reports scores w
    = match analyze_questions service pre reports scores w with
      | (Ok (reports', scores'), w1) =>
          analyze_questions service rest reports' scores' w1
      | (Raise e, w1) => (Raise e, w1)
      end.
Proof.
  induction pre as [| p pre IH]; intros reports scores w; [reflexivity |].
  cbn [app analyze_questions]. unfold bind.
  destruct (analyze_question service p w) as [[rep | e] w1]; [| reflexivity].
  apply IH.
Qed.

(** X9: the [runtime_error] flag changes nothing but the status.  With the
    flag set either way, the same world and the same service give the same
    request, the same critique, the same final score and the same pass rate
    and counts. *)
Theorem analyze_question_runtime_flag (p : payload) (flag : bool)
    (w w' : world) (rep : question_report) :
  analyze_question service p w = (Ok rep, w') ->
  exists m : metrics,
    quantitative_check (with_runtime_error p flag) = Ok m /\
    pass_rate m = pass_rate (report_metrics rep) /\
    passed_tests m = passed_tests (report_metrics rep) /\
    total_tests m = total_tests (report_metrics rep) /\
    analyze_question service (with_runtime_error p flag) w
    = (Ok (mk_question_report (question rep) (report_language rep)
             (final_score rep) m (ai_analysis rep)),
       w').
Proof.
  unfold analyze_question, qualitative_check. run_M.
  rewrite (quantitative_check_ok p),
    (quantitative_check_ok (with_runtime_error p flag)).
  cbv zeta. cbn [with_runtime_error test_case_results syntax_error
                 runtime_error ai_generated_coding_question language User_code].
  destruct (syntax_error p).
  - cbn. intros [= <- <-]. cbn. eexists. repeat split.
  - cbn [pass_rate passed_tests total_tests].
    match goal with
    | |- context [_call_ai service ?r w] =>
        destruct (_call_ai service r w) as [[qual | e] w1]
    end; [| discriminate].
    unfold score. cbn [pass_rate].
    match goal with
    | |- context [rbind ?x ?k] => destruct (rbind x k) as [s | e]
    end; [| discriminate].
    intros [= <- <-]. cbn. eexists. repeat split.
Qed.

(** X10: a reply that parses but cannot be scored is not caught.  When the
    service answers the analysis request of a submission without a syntax
    error with a value on which [score] raises, [generate] raises the same
    exception right after that request: the reports built so far are lost
    and no later request is sent. *)
Theorem generate_aborts_on_unscorable_reply (pre post : list payload)
    (p : payload) (w w1 : world) (reports : list question_report)
    (scores : list Q) (quant : metrics) (reply : json) (e : exn) :
  analyze_questions service pre [] [] w = (Ok (reports, scores), w1) ->
  syntax_error p = false ->
  quantitative_check p = Ok quant ->
  service (requests w1) (analysis_request p quant) = Replied reply ->
  score quant reply false = Raise e ->
  generate service (pre ++ p :: post) w
  = (Raise e,
     mk_world (requests w1 ++ [analysis_request p quant]) (printed w1)).
Proof.
  intros Hpre Hs Hq Hreply Hscore.
  unfold generate. unfold bind at 1.
  rewrite analyze_questions_app, Hpre. cbn [analyze_questions].
  unfold bind at 1. unfold analyze_question. run_M.
  rewrite Hq. unfold qualitative_check, _call_ai. rewrite Hs.
  unfold analysis_request in Hreply. rewrite Hreply, Hscore. reflexivity.
Qed.

(** X11: when the reply to the synthesis request parses to something that is
    not a dictionary, [generate] raises [AttributeError] although every
    question was analysed, and prints nothing for it. *)
Theorem generate_synthesis_reply_not_dict (payloads : list payload)
    (w w1 : world) (reports : list question_report) (scores : list Q)
    (reply : json) :
  analyze_questions service payloads [] [] w = (Ok (reports, scores), w1) ->
  (forall (avg : Q) (ctx : list question_summary),
     overall_average scores = Ok avg ->
     summary_context_of reports = Ok ctx ->
     service (requests w1) (SynthesisPrompt avg ctx) = Replied reply) ->
  is_dict reply = false ->
  exists w2 : world,
    generate service payloads w = (Raise AttributeError, w2) /\
    printed w2 = printed w1.
Proof.
  intros Hrun Hreply Hnd.
  pose proof (analyze_questions_inv service _ _ _ _ _ _ _ Hrun eq_refl
                (Forall_nil _)) as (Hs & Hf & Hlen).
  destruct (summary_context_of_ok reports Hf) as [ctx Hctx].
  pose proof (overall_average_ok scores) as Havg.
  specialize (Hreply _ ctx Havg Hctx).
  unfold generate. run_M. rewrite Hrun. cbn [fst snd].
  rewrite Havg. unfold synthesize_final_report. run_M.
  rewrite Hctx. unfold _call_ai. rewrite Hreply.
  destruct reply; try discriminate; cbn; eexists; split; reflexivity.
Qed.

(** X12: when the reply to the synthesis request is a dictionary,
    [generate] returns; the recruiter summary and the growth plan are the
    values under "recruiter_executive_summary" and
    "candidate_holistic_feedback", whatever they are, and the empty dictionary
    for a missing key. *)
Theorem generate_synthesis_reply_dict (payloads : list payload)
    (w w1 : world) (reports : list question_report) (scores : list Q)
    (fields : list (string * json)) :
  analyze_questions service payloads [] [] w = (Ok (reports, scores), w1) ->
  (forall (avg : Q) (ctx : list question_summary),
     overall_average scores = Ok avg ->
     summary_context_of reports = Ok ctx ->
     service (requests w1) (SynthesisPrompt avg ctx) = Replied (JObj fields)) ->
  exists (rep : final_report) (w2 : world),
    generate service payloads w = (Ok rep, w2) /\
    detailed_question_analysis rep = reports /\
    recruiter_summary (final_conclusive_report rep)
    = match assoc "recruiter_executive_summary" fields with
      | Some v => v
      | None => JObj []
      end /\
    candidate_growth_plan (final_conclusive_report rep)
    = match assoc "candidate_holistic_feedback" fields with
      | Some v => v
      | None => JObj []
      end /\
    printed w2 = printed w1.
Proof.
  intros Hrun Hreply.
  pose proof (analyze_questions_inv service _ _ _ _ _ _ _ Hrun eq_refl
                (Forall_nil _)) as (Hs & Hf & Hlen).
  destruct (summary_context_of_ok reports Hf) as [ctx Hctx].
  pose proof (overall_average_ok scores) as Havg.
  specialize (Hreply _ ctx Havg Hctx).
  unfold generate. run_M. rewrite Hrun. cbn [fst snd].
  rewrite Havg. unfold synthesize_final_report. run_M.
  rewrite Hctx. unfold _call_ai. rewrite Hreply. cbn [dict_get].
  destruct (assoc "recruiter_executive_summary" fields);
    destruct (assoc "candidate_holistic_feedback" fields);
    eexists; eexists; (split; [reflexivity |]); cbn; auto.
Qed.

End PipelineEdges.

(** ** Bounds on the overall score *)

Lemma Qge_bool_false (a b : Q) : a < b -> Qge_bool a b = false.
Proof.
  intros H. unfold Qge_bool. apply not_true_iff_false.
  rewrite Qle_bool_iff. lra.
Qed.


Section PipelineBounds.

Variable service : list prompt -> prompt -> ai_outcome.


Hypothesis service_down :
  forall (sent : list prompt) (request : prompt),
    exists detail : string, service sent request = Failed detail.

Lemma analyze_question_service_down (p : payload) (w : world) :
  exists (rep : question_report) (w' : world),
    analyze_question service p w = (Ok rep, w') /\
    0 <= final_score rep <= 55.
Proof.
  unfold analyze_question, qualitative_check. run_M.
  destruct (quantitative_check_rate_range p) as (m & Hq & Hrate). rewrite Hq.
  destruct (syntax_error p).
  - cbn. eexists. eexists. split; [reflexivity |]. cbn. lra.
  - destruct (service_down (requests w)
                (AnalysisPrompt (ai_generated_coding_question p) (language p)
                   (pass_rate m) (passed_tests m) (total_tests m) (User_code p)))
      as [detail Hd].
    rewrite (_call_ai_failed service _ _ _ Hd).
    rewrite (score_numeric m (JObj []) (JNum 0) (JNum 0) 0 0) by reflexivity.
    eexists. eexists. split; [reflexivity |]. cbn [final_score].
    assert (L : weighted_sum 0 0 0 <= weighted_sum (pass_rate m) 0 0)
      by (apply weighted_sum_monotone; lra).
    assert (U : weighted_sum (pass_rate m) 0 0 <= weighted_sum 100 0 0)
      by (apply weighted_sum_monotone; lra).
    apply (py_round_monotone 2) in L, U.
    assert (L0 : py_round (weighted_sum 0 0 0) 2 == 15) by reflexivity.
    assert (U0 : py_round (weighted_sum 100 0 0) 2 == 55) by reflexivity.
    lra.
Qed.

Lemma analyze_questions_service_down (payloads : list payload) :
  forall (reports : list question_report) (scores : list Q) (w : world),
    exists (new : list question_report) (w' : world),
      analyze_questions service payloads reports scores w
      = (Ok ((reports ++ new)%list, (scores ++ map final_score new)%list), w') /\
      Forall (fun r => 0 <= final_score r <= 55) new /\
      List.length new = List.length payloads.
Proof.
  induction payloads as [| p rest IH]; intros reports scores w;
    cbn [analyze_questions].
  - exists [], w. rewrite !app_nil_r. cbn. auto.
  - unfold bind.
    destruct (analyze_question_service_down p w) as (rep & w1 & -> & Hb).
    destruct (IH (reports ++ [rep])%list (scores ++ [final_score rep])%list w1)
      as (new & w' & -> & Hall & Hlen).
    exists (rep :: new), w'. rewrite <- !app_assoc. cbn.
    split; [reflexivity |]. split; [constructor; assumption | lia].
Qed.

(** X14: when every request fails, [generate] still returns a report for
    every batch, with one question report per submission; no final score
    exceeds 55, so the overall score is at most 55 and the status is "Failed";
    the recruiter summary and the growth plan are empty dictionaries. *)
Theorem generate_service_down (payloads : list payload) (w : world) :
  exists (rep : final_report) (w' : world),
    generate service payloads w = (Ok rep, w') /\
    List.length (detailed_question_analysis rep) = List.length payloads /\
    Forall (fun r => 0 <= final_score r <= 55)
      (detailed_question_analysis rep) /\
    overall_score (final_conclusive_report rep) <= 55 /\
    report_status (final_conclusive_report rep) = "Failed" /\
    recruiter_summary (final_conclusive_report rep) = JObj [] /\
    candidate_growth_plan (final_conclusive_report rep) = JObj [].
Proof.
  destruct (analyze_questions_service_down payloads [] [] w)
    as (new & w1 & Hrun & Hall & Hlen). cbn [app] in Hrun.
  pose proof (analyze_questions_inv service _ _ _ _ _ _ _ Hrun eq_refl
                (Forall_nil _)) as (_ & Hf & _).
  destruct (summary_context_of_ok new Hf) as [ctx Hctx].
  assert (Havg : exists avg, overall_average (map final_score new) = Ok avg /\
                             avg <= 55).
  { destruct new as [| r new'].
    - exists 0. split; [reflexivity | lra].
    - destruct (overall_average_within 0 55 (map final_score (r :: new')))
        as (avg & Ha & Hb); [discriminate | apply Forall_map; exact Hall |].
      exists avg. split; [exact Ha |].
      assert (py_round 55 2 == 55) by reflexivity. lra. }
  destruct Havg as (avg & Ha & Hb).
  unfold generate. run_M. rewrite Hrun. cbn [fst snd]. rewrite Ha.
  unfold synthesize_final_report. run_M. rewrite Hctx.
  destruct (service_down (requests w1) (SynthesisPrompt avg ctx))
    as [detail Hd].
  rewrite (_call_ai_failed service _ _ _ Hd). cbn [dict_get assoc].
  eexists. eexists. split; [reflexivity |]. cbn.
  rewrite Qge_bool_false by lra. repeat split; assumption.
Qed.

End PipelineBounds.

Lemma generate_service_down_witness :
  exists (rep : final_report) (w' : world),
    generate (fun _ _ => Failed "503 Service Unavailable") demo_batch quiet
    = (Ok rep, w') /\
    report_status (final_conclusive_report rep) = "Failed" /\
    List.length (printed w') = 4%nat.
Proof.
  destruct (generate_service_down (fun _ _ => Failed "503 Service Unavailable")
              (fun _ _ => ex_intro _ "503 Service Unavailable" eq_refl)
              demo_batch quiet)
    as (rep & w' & Hgen & _ & _ & _ & Hst & _).
  exists rep, w'. split; [exact Hgen |]. split; [exact Hst |].
  vm_compute in Hgen. injection Hgen as _ <-. reflexivity.
Defined.

(** ** Further properties at the sample data *)

Lemma quantitative_check_status_rate_witness :
  status (mk_metrics "Completed" (10000 # 100) 2 2) = "Completed" /\
  syntax_error (demo_payload "Q1" [true; true] false false) = false /\
  runtime_error (demo_payload "Q1" [true; true] false false) = false /\
  pass_rate (mk_metrics "Completed" (10000 # 100) 2 2) == 100.
Proof.
  split; [reflexivity |].
  destruct (quantitative_check_status_rate
              (demo_payload "Q1" [true; true] false false)
              (mk_metrics "Completed" (10000 # 100) 2 2) eq_refl)
    as (_ & _ & _ & Hdone).
  destruct (Hdone eq_refl) as (Hs & Hr & Hrate & _). auto.
Defined.

Lemma score_compiling_at_least_15_witness :
  exists s : Q,
    score (mk_metrics "Partial Pass" 0 0 2) (JObj []) false = Ok s /\
    15 <= s /\ ~ s == 0.
Proof.
  apply (score_compiling_at_least_15 (mk_metrics "Partial Pass" 0 0 2)
           (JObj []) (JNum 0) (JNum 0) 0 0);
    try reflexivity; cbn; lra.
Defined.

Lemma generate_reports_in_order_witness :
  exists (rep : final_report) (w' : world),
    generate (demo_service (Replied demo_summary)) demo_batch quiet
    = (Ok rep, w') /\
    map question (detailed_question_analysis rep) = ["Q1"; "Q2"; "Q3"] /\
    map report_language (detailed_question_analysis rep)
    = map language demo_batch.
Proof.
  destruct (generate (demo_service (Replied demo_summary)) demo_batch quiet)
    as [[rep | e] w'] eqn:E; [| vm_compute in E; discriminate].
  exists rep, w'.
  destruct (generate_reports_in_order _ demo_batch quiet w' rep E)
    as (_ & Hq & Hl).
  split; [reflexivity |]. split; [exact Hq | exact Hl].
Defined.

Lemma generate_requests_witness :
  exists (rep : final_report) (w' : world) (ctx : list question_summary),
    generate (demo_service (Replied demo_summary))
      (demo_payload "Q0" [true] true false :: demo_batch) quiet
    = (Ok rep, w') /\
    List.length (requests w') = 4%nat /\
    map summary_question ctx = ["Q0"; "Q1"; "Q2"; "Q3"] /\
    List.last (requests w') (SynthesisPrompt 0 [])
    = SynthesisPrompt (overall_score (final_conclusive_report rep)) ctx.
Proof.
  destruct (generate (demo_service (Replied demo_summary))
              (demo_payload "Q0" [true] true false :: demo_batch) quiet)
    as [[rep | e] w'] eqn:E; [| vm_compute in E; discriminate].
  destruct (generate_requests _ _ quiet w' rep E)
    as (ctx & Hreq & Hlen & Hq & _).
  exists rep, w', ctx. split; [reflexivity |].
  split; [| split; [exact Hq |]].
  - rewrite Hreq, !length_app, Hlen. reflexivity.
  - rewrite Hreq, app_assoc. apply last_last.
Defined.

Lemma analyze_question_runtime_flag_witness :
  exists (rep : question_report) (w' : world) (m : metrics),
    analyze_question (demo_service (Replied demo_summary))
      (demo_payload "Q2" [true; false] false false) quiet
    = (Ok rep, w') /\
    analyze_question (demo_service (Replied demo_summary))
      (with_runtime_error (demo_payload "Q2" [true; false] false false) true)
      quiet
    = (Ok (mk_question_report (question rep) (report_language rep)
             (final_score rep) m (ai_analysis rep)),
       w') /\
    status m = "Runtime Error" /\
    final_score rep == 50.
Proof.
  destruct (analyze_question (demo_service (Replied demo_summary))
              (demo_payload "Q2" [true; false] false false) quiet)
    as [[rep | e] w'] eqn:E; [| vm_compute in E; discriminate].
  destruct (analyze_question_runtime_flag _ _ true quiet w' rep E)
    as (m & Hm & _ & _ & _ & Hrun).
  exists rep, w', m. split; [reflexivity |]. split; [exact Hrun |].
  vm_compute in Hm. injection Hm as <-.
  vm_compute in E. injection E as <- <-.
  split; reflexivity.
Defined.

Lemma generate_aborts_on_unscorable_reply_witness :
  generate prose_service
    (demo_payload "Q0" [true] true false
     :: demo_payload "Q1" [true; true] false false
     :: [demo_payload "Q2" [true; false] false false])
    quiet
  = (Raise AttributeError,
     mk_world
       [analysis_request (demo_payload "Q1" [true; true] false false)
          (mk_metrics "Completed" (10000 # 100) 2 2)]
       []).
Proof.
  apply (generate_aborts_on_unscorable_reply prose_service
           [demo_payload "Q0" [true] true false]
           [demo_payload "Q2" [true; false] false false]
           (demo_payload "Q1" [true; true] false false) quiet quiet
           [mk_question_report "Q0" "Python" 0
              (mk_metrics "Syntax Error" 0 0 1)
              (_get_fallback_error "Syntax Error - Code did not compile.")]
           [0] (mk_metrics "Completed" (10000 # 100) 2 2)
           (JStr "I cannot review this code.") AttributeError);
    reflexivity.
Defined.

Lemma generate_synthesis_reply_not_dict_witness :
  exists w2 : world,
    generate (demo_service (Replied (JArr []))) demo_batch quiet
    = (Raise AttributeError, w2) /\
    printed w2 = [].
Proof.
  destruct (analyze_questions (demo_service (Replied (JArr []))) demo_batch
              [] [] quiet) as [[[reports scores] | e] w1] eqn:E;
    [| vm_compute in E; discriminate].
  destruct (generate_synthesis_reply_not_dict
              (demo_service (Replied (JArr []))) demo_batch quiet w1
              reports scores (JArr []) E (fun _ _ _ _ => eq_refl) eq_refl)
    as (w2 & Hgen & Hp).
  exists w2. split; [exact Hgen |].
  vm_compute in E. injection E as _ _ <-. exact Hp.
Defined.

Lemma generate_synthesis_reply_dict_witness :
  exists (rep : final_report) (w2 : world),
    generate (demo_service (Replied (JObj [("note", JStr "no verdict")])))
      demo_batch quiet
    = (Ok rep, w2) /\
    recruiter_summary (final_conclusive_report rep) = JObj [] /\
    candidate_growth_plan (final_conclusive_report rep) = JObj [].
Proof.
  destruct (analyze_questions
              (demo_service (Replied (JObj [("note", JStr "no verdict")])))
              demo_batch [] [] quiet) as [[[reports scores] | e] w1] eqn:E;
    [| vm_compute in E; discriminate].
  destruct (generate_synthesis_reply_dict
              (demo_service (Replied (JObj [("note", JStr "no verdict")])))
              demo_batch quiet w1 reports scores
              [("note", JStr "no verdict")] E (fun _ _ _ _ => eq_refl))
    as (rep & w2 & Hgen & _ & Hr & Hg & _).
  exists rep, w2. split; [exact Hgen |]. split; [exact Hr | exact Hg].
Defined.


Lemma score_outcomes_witness :
  (score (mk_metrics "Completed" 100 2 2) (demo_critique 8 5) false
   = Raise AttributeError /\
   forall k : string,
     technical_score (demo_critique 8 5) k = Raise AttributeError) \/
  (exists eff_score style_score : json,
     technical_score (demo_critique 8 5) "efficiency_score" = Ok eff_score /\
     technical_score (demo_critique 8 5) "style_score" = Ok style_score /\
     ((score (mk_metrics "Completed" 100 2 2) (demo_critique 8 5) false
       = Raise TypeError /\
       (as_number eff_score = Raise TypeError \/
        as_number style_score = Raise TypeError)) \/
      (exists (eff style s : Q) (hundredths : Z),
         as_number eff_score = Ok eff /\
         as_number style_score = Ok style /\
         score (mk_metrics "Completed" 100 2 2) (demo_critique 8 5) false
         = Ok s /\
         s == inject_Z hundredths / 100 /\
         - (1 # 100) <= s - weighted_sum 100 eff style <= 1 # 100))).
Proof.
  apply (score_outcomes (mk_metrics "Completed" 100 2 2) (demo_critique 8 5)).
  - unfold bounded. cbn. lra.
  - intros v q Hv Hq. cbn in Hv. injection Hv as <-. cbn in Hq.
    injection Hq as <-. unfold bounded. lra.
  - intros v q Hv Hq. cbn in Hv. injection Hv as <-. cbn in Hq.
    injection Hq as <-. unfold bounded. lra.
Defined.
